(** * hotrunner: a Django test runner with app exclusion, timing and an HTML report

    A shallow embedding of [hotrunner.py].

    - Python byte strings are [string]s; lists and tuples of strings are
      [list string].
    - [django.conf.settings] is a record of optional attributes, read with
      [getattr] and a default, as the source does.
    - The result object is a record: the inherited [TextTestResult] part is
      an abstract type [B] behind the interface [TextTestResult], and the
      three attributes the subclass adds are optional fields ([None]: the
      attribute has not been assigned yet).
    - Callbacks run in a small state-and-exception monad over the result
      object and the disk. An exception leaves the mutations made before it
      in place, as in Python.
    - [time.time()] values are floats: they are kept abstract behind the
      interface [PyFloat]; every callback takes the clock reading it makes
      as an argument.
    - The disk is a finite map from paths to contents. In the section
      [Sink] opening and writing a file always succeeds; the section
      [SinkIO] has the terminal callbacks again with an [open] that raises
      [IOError] on the paths that cannot be opened. A test object is a
      [unittest.TestCase], which has every attribute the code reads, and
      the inherited methods return. *)

From Stdlib Require Import Ascii String List Bool Arith ZArith Lia.
From Stdlib Require Import Numbers.DecimalString.
From stdpp Require Import base option gmap strings list fin_maps.

Import ListNotations.
Local Open Scope string_scope.
Local Open Scope list_scope.

(** ** Python primitives used by the source *)

Module Py.

(** Truth value of a list or tuple: empty is false. *)
Definition truthy_list {A} (l : list A) : bool :=
  match l with [] => false | _ :: _ => true end.

(** Truth value of a [str]: empty is false. *)
Definition truthy_str (s : string) : bool :=
  match s with EmptyString => false | String _ _ => true end.

(** [s.split(sep)] for a one-character separator. The result is never
    empty: a string without the separator gives [[s]]. *)
Fixpoint split (sep : ascii) (s : string) : list string :=
  match s with
  | EmptyString => [EmptyString]
  | String c s' =>
      if Ascii.eqb c sep then EmptyString :: split sep s'
      else match split sep s' with
           | h :: t => String c h :: t
           | [] => [String c EmptyString]
           end
  end.

(** [sep.join(l)] *)
Fixpoint join (sep : string) (l : list string) : string :=
  match l with
  | [] => EmptyString
  | [x] => x
  | x :: (_ :: _) as r => x +:+ sep +:+ join sep r
  end.

(** [s.startswith(p)] *)
Definition startswith (s p : string) : bool := String.prefix p s.

(** [x in l] for a list of strings. *)
Definition contains (x : string) (l : list string) : bool :=
  existsb (String.eqb x) l.

(** [str(n)] for a non-negative [int]. *)
Definition str_of_nat (n : nat) : string :=
  NilZero.string_of_uint (Nat.to_uint n).

(** The class of [\w] on a byte string, with no flag: [[a-zA-Z0-9_]]. *)
Definition is_word (c : ascii) : bool :=
  let n := nat_of_ascii c in
  ((48 <=? n)%nat && (n <=? 57)%nat) || ((65 <=? n)%nat && (n <=? 90)%nat)
  || ((97 <=? n)%nat && (n <=? 122)%nat) || (n =? 95)%nat.

(** [re.findall('[\w_]+', s)]: the maximal runs of word characters, from
    left to right. [cur] is the run being read, reversed. *)
Fixpoint findall_words_from (cur : list ascii) (s : string) : list string :=
  match s with
  | EmptyString =>
      match cur with
      | [] => []
      | _ :: _ => [string_of_list_ascii (rev cur)]
      end
  | String c s' =>
      if is_word c then findall_words_from (c :: cur) s'
      else match cur with
           | [] => findall_words_from [] s'
           | _ :: _ => string_of_list_ascii (rev cur) :: findall_words_from [] s'
           end
  end.

Definition findall_words (s : string) : list string :=
  findall_words_from [] s.

(** [l[i]], with Python's negative indices; [None] is an [IndexError]. *)
Definition getitem {A} (l : list A) (i : Z) : option A :=
  let n := Z.of_nat (List.length l) in
  if (0 <=? i)%Z && (i <? n)%Z then nth_error l (Z.to_nat i)
  else if (- n <=? i)%Z && (i <? 0)%Z then nth_error l (Z.to_nat (n + i))
  else None.

End Py.

(** ** [django.conf.settings] *)

(** A setting that holds a path is [None] or a [str]. *)
Inductive pyval : Type :=
| PyNone
| PyStr (s : string).

Definition truthy (v : pyval) : bool :=
  match v with
  | PyNone => false
  | PyStr s => Py.truthy_str s
  end.

(** [a or b] *)
Definition py_or (a b : pyval) : pyval := if truthy a then a else b.

(** An attribute that is not set is [None] in the record. *)
Record Settings : Type := {
  INSTALLED_APPS : list string;
  EXCLUDED_TEST_APPS : option (list string);
  TEST_ALL_APPS : option bool;
  HOTRUNNER_XUNIT_FILENAME : option pyval;
  JUXD_FILENAME : option pyval;
}.

(** [getattr(settings, name, default)] *)
Definition getattr {A} (attr : option A) (default : A) : A :=
  match attr with
  | Some v => v
  | None => default
  end.

(** ** [HotRunner.run_tests] *)

(** [x.split('.')[-1]]; the split is never empty, so the default of [last]
    is never returned (lemma [split_nonempty]). *)
Definition leaf (x : string) : string := List.last (Py.split "." x) EmptyString.

Definition is_contrib (x : string) : bool := Py.startswith x "django.contrib.".

Section RunTests.
(** The keyword arguments, the extra tests and the value returned by the
    inherited [DjangoTestSuiteRunner.run_tests] are those of the engine. *)
Context {Extra Kwargs R : Type}.
Variable super_run_tests : list string -> Extra -> Kwargs -> R.

Definition run_tests (settings : Settings) (test_labels : list string)
    (extra_tests : Extra) (kwargs : Kwargs) : R :=
  let test_labels :=
    if negb (Py.truthy_list test_labels) then
      let excluded_apps := getattr (EXCLUDED_TEST_APPS settings) [] in
      let excluded_apps :=
        if getattr (TEST_ALL_APPS settings) false then [] else excluded_apps in
      map leaf
        (List.filter
           (fun x => negb (Py.contains x excluded_apps) && negb (is_contrib x))
           (INSTALLED_APPS settings))
    else test_labels in
  super_run_tests test_labels extra_tests kwargs.
End RunTests.

(** ** Test objects, exception triples, exceptions *)

(** What the code reads of a [unittest.TestCase]. [str(test)] and
    [repr(test)] are fields: a test class may define them as it likes. *)
Record TestCase : Type := {
  test_module : string;                 (* test.__module__ *)
  test_class_name : string;             (* test.__class__.__name__ *)
  _testMethodName : string;
  test_str : string;                    (* str(test) *)
  test_repr : string;                   (* repr(test) *)
  shortDescription : pyval;             (* None, or the docstring's first line *)
}.

(** [err = (exc_class, exc_value, tb)], as [sys.exc_info()] gives it. *)
Record exc_info : Type := {
  exc_class_module : string;            (* exc_class.__module__ *)
  exc_class_name : string;              (* exc_class.__name__ *)
  exc_value_str : string;               (* str(exc_value) *)
  exc_tb : list string;                 (* the frames of tb *)
}.

Inductive exn : Type :=
| AttributeError (attr : string)
| IndexError
| TypeError
| IOError (path : string).

Inductive outcome (A : Type) : Type :=
| Returns (a : A)
| Raises (e : exn).
Arguments Returns {A} a.
Arguments Raises {A} e.

(** ** More of Python: [repr] and [str] of the values the report prints *)

Module PyRepr.

Definition hex_digit (n : nat) : ascii :=
  ascii_of_nat (if (n <? 10)%nat then 48 + n else 87 + n).

Definition has_char (c : ascii) (s : string) : bool :=
  existsb (Ascii.eqb c) (list_ascii_of_string s).

Definition squote : ascii := ascii_of_nat 39.
Definition dquote : ascii := ascii_of_nat 34.
Definition backslash : ascii := ascii_of_nat 92.

Definition escape (quote c : ascii) : string :=
  let n := nat_of_ascii c in
  if Ascii.eqb c quote || Ascii.eqb c backslash then String backslash (String c EmptyString)
  else if (n =? 9)%nat then String backslash "t"
  else if (n =? 10)%nat then String backslash "n"
  else if (n =? 13)%nat then String backslash "r"
  else if (n <? 32)%nat || (127 <=? n)%nat then
    String backslash (String "x" (String (hex_digit (n / 16)) (String (hex_digit (n mod 16)) EmptyString)))
  else String c EmptyString.

(** [repr(s)] of a byte string: single quotes, unless [s] has a single
    quote and no double quote. *)
Definition repr_str (s : string) : string :=
  let quote := if has_char squote s && negb (has_char dquote s) then dquote else squote in
  String quote
    (String.concat EmptyString (map (escape quote) (list_ascii_of_string s))
     +:+ String quote EmptyString).

(** [repr((test, s))] *)
Definition repr_pair (p : TestCase * string) : string :=
  "(" +:+ test_repr (fst p) +:+ ", " +:+ repr_str (snd p) +:+ ")".

(** [str(l)], which is what ['{0}'.format(l)] gives for a list. *)
Definition str_of_list (l : list (TestCase * string)) : string :=
  "[" +:+ Py.join ", " (map repr_pair l) +:+ "]".

End PyRepr.

(** ** The interfaces the subclass is written against *)

(** Floats of [time.time()]: subtraction, and [str] as ['{0}'.format] uses it. *)
Class PyFloat (T : Type) : Type := {
  fsub : T -> T -> T;
  fstr : T -> string;
}.

(** The inherited [TextTestResult]: the attributes the subclass reads, and
    the methods it reaches through [super]. *)
Class TextTestResult (B : Type) : Type := {
  descriptions : B -> bool;
  errors : B -> list (TestCase * string);
  failures : B -> list (TestCase * string);
  skipped : B -> list (TestCase * string);
  testsRun : B -> nat;
  _exc_info_to_string : B -> exc_info -> TestCase -> string;
  super_startTest : TestCase -> B -> B;
  super_addSuccess : TestCase -> B -> B;
  super_addFailure : TestCase -> exc_info -> B -> B;
  super_addError : TestCase -> exc_info -> B -> B;
  super_addUnexpectedSuccess : TestCase -> B -> B;
  super_addSkip : TestCase -> string -> B -> B;
  super_addExpectedFailure : TestCase -> exc_info -> B -> B;
  super_startTestRun : B -> B;
  super_stopTestRun : B -> B;
}.

(** ** The result object and the disk *)

Record HotRunnerTestResult (T B : Type) : Type := {
  base : B;
  case_start_time : option T;
  case_time_taken : option T;
  run_start_time : option T;
}.
Arguments base {T B} _.
Arguments case_start_time {T B} _.
Arguments case_time_taken {T B} _.
Arguments run_start_time {T B} _.

Record World (T B : Type) : Type := {
  self : HotRunnerTestResult T B;
  disk : gmap string string;
}.
Arguments self {T B} _.
Arguments disk {T B} _.

(** A result object as [TextTestResult.__init__] leaves it: the subclass
    has no [__init__] of its own, so none of its attributes exists. *)
Definition fresh {T B} (b : B) : HotRunnerTestResult T B :=
  {| base := b; case_start_time := None; case_time_taken := None; run_start_time := None |}.

(** ** The monad of callbacks *)

Definition M (T B A : Type) : Type := World T B -> outcome A * World T B.

Definition ret {T B A} (a : A) : M T B A := fun w => (Returns a, w).

Definition bind {T B A A'} (m : M T B A) (k : A -> M T B A') : M T B A' :=
  fun w =>
    match m w with
    | (Returns a, w') => k a w'
    | (Raises e, w') => (Raises e, w')
    end.

Definition raise {T B A} (e : exn) : M T B A := fun w => (Raises e, w).

Declare Scope py_scope.
Delimit Scope py_scope with py.
Notation "'do' x <- m ; k" := (bind m (fun x => k))
  (at level 10, x name, m at level 100, k at level 200) : py_scope.
Notation "m ;; k" := (bind m (fun _ => k))
  (at level 100, k at level 200, right associativity) : py_scope.
Local Open Scope py_scope.

Section Sink.
Context {T B : Type} `{PyFloat T} `{TextTestResult B}.
Variable settings : Settings.

Abbreviation M := (M T B).

(** [self.<attr>] for an attribute the subclass adds. *)
Definition read_attr (name : string) (f : HotRunnerTestResult T B -> option T) : M T :=
  fun w =>
    match f (self w) with
    | Some v => (Returns v, w)
    | None => (Raises (AttributeError name), w)
    end.

(** [self.<attr>] for an inherited attribute. *)
Definition read_base {A} (f : B -> A) : M A :=
  fun w => (Returns (f (base (self w))), w).

Definition update_self (f : HotRunnerTestResult T B -> HotRunnerTestResult T B) : M unit :=
  fun w => (Returns tt, {| self := f (self w); disk := disk w |}).

Definition set_case_start_time (v : T) : M unit :=
  update_self (fun r => {| base := base r; case_start_time := Some v;
                           case_time_taken := case_time_taken r;
                           run_start_time := run_start_time r |}).

Definition set_case_time_taken (v : T) : M unit :=
  update_self (fun r => {| base := base r; case_start_time := case_start_time r;
                           case_time_taken := Some v;
                           run_start_time := run_start_time r |}).

Definition set_run_start_time (v : T) : M unit :=
  update_self (fun r => {| base := base r; case_start_time := case_start_time r;
                           case_time_taken := case_time_taken r;
                           run_start_time := Some v |}).

(** [super(HotRunnerTestResult, self).<method>(...)] *)
Definition super (f : B -> B) : M unit :=
  update_self (fun r => {| base := f (base r); case_start_time := case_start_time r;
                           case_time_taken := case_time_taken r;
                           run_start_time := run_start_time r |}).

Inductive mode : Type := ModeW | ModeA.

(** [open(path, mode)]: ['w'] truncates or creates, ['a'] keeps or
    creates. The handle is the path. [open(None, ...)] is a [TypeError]. *)
Definition fopen (path : pyval) (m : mode) : M string :=
  fun w =>
    match path with
    | PyNone => (Raises TypeError, w)
    | PyStr p =>
        let content := match m with
                       | ModeW => EmptyString
                       | ModeA => default EmptyString (disk w !! p)
                       end in
        (Returns p, {| self := self w; disk := <[p := content]> (disk w) |})
    end.

(** [f.write(s)] *)
Definition fwrite (f : string) (s : string) : M unit :=
  fun w =>
    (Returns tt,
     {| self := self w;
        disk := <[f := default EmptyString (disk w !! f) +:+ s]> (disk w) |}).

(** [f.close()], also what leaving a [with] block does. *)
Definition fclose (f : string) : M unit := ret tt.

Definition q : string := String PyRepr.dquote EmptyString.
Definition newline : string := String (ascii_of_nat 10) EmptyString.

(** *** [HotRunnerTestResult] *)

Definition getDescription (r : HotRunnerTestResult T B) (test : TestCase) : outcome string :=
  let doc_first_line := shortDescription test in
  let otherwise :=
    let test := Py.findall_words (test_str test) in
    match Py.getitem test 1, Py.getitem test (-1), Py.getitem test 0 with
    | Some app, Some suite, Some testname =>
        Returns (testname +:+ " (" +:+ app +:+ "." +:+ suite +:+ "." +:+ testname +:+ ")")
    | _, _, _ => Raises IndexError
    end in
  match doc_first_line with
  | PyStr d =>
      if descriptions (base r) && truthy doc_first_line
      then Returns (Py.join newline [test_str test; d])
      else otherwise
  | PyNone => otherwise
  end.

Definition xunit_filename : pyval :=
  let hxf := getattr (HOTRUNNER_XUNIT_FILENAME settings) PyNone in
  let juxf := getattr (JUXD_FILENAME settings) PyNone in
  py_or hxf juxf.

Definition _make_testcase_element (test : TestCase) : M unit :=
  let classname :=
    Py.split "." (test_module test +:+ "." +:+ test_class_name test) in
  if truthy xunit_filename then
    do f <- fopen xunit_filename ModeA;
    fwrite f "<div>" ;;
    fwrite f ("<font color=" +:+ q +:+ "green" +:+ q +:+ ">") ;;
    (do taken <- read_attr "case_time_taken" case_time_taken;
     fwrite f ("time - " +:+ fstr taken +:+ "; ")) ;;
    fwrite f ("classname - " +:+ Py.join "." classname +:+ "; ") ;;
    fwrite f ("name - " +:+ _testMethodName test +:+ "; ") ;;
    fwrite f "</font>" ;;
    fwrite f "</div>" ;;
    fclose f
  else ret tt.

Definition _add_tb_to_test (test : TestCase) (err : exc_info) : M unit :=
  do tb_str <- read_base (fun b => _exc_info_to_string b err test);
  if truthy xunit_filename then
    do f <- fopen xunit_filename ModeA;
    fwrite f ("<font color=" +:+ q +:+ "red" +:+ q +:+ ">") ;;
    fwrite f ("<p>message - " +:+ exc_value_str err +:+ "</p>") ;;
    fwrite f ("<p>type - " +:+ exc_class_module err +:+ " " +:+ exc_class_name err +:+ "</p>") ;;
    fwrite f ("<p>text - " +:+ tb_str +:+ "</p>") ;;
    fwrite f "</font>" ;;
    fclose f
  else ret tt.

(** [self.case_time_taken = time.time() - self.case_start_time] *)
Definition take_case_time (now : T) : M unit :=
  do start <- read_attr "case_start_time" case_start_time;
  set_case_time_taken (fsub now start).

Definition startTest (now : T) (test : TestCase) : M unit :=
  set_case_start_time now ;;
  super (super_startTest test).

Definition addSuccess (now : T) (test : TestCase) : M unit :=
  take_case_time now ;;
  (if truthy xunit_filename then _make_testcase_element test else ret tt) ;;
  super (super_addSuccess test).

Definition addFailure (now : T) (test : TestCase) (err : exc_info) : M unit :=
  take_case_time now ;;
  (if truthy xunit_filename
   then _make_testcase_element test ;; _add_tb_to_test test err
   else ret tt) ;;
  super (super_addFailure test err).

Definition addError (now : T) (test : TestCase) (err : exc_info) : M unit :=
  take_case_time now ;;
  (if truthy xunit_filename
   then _make_testcase_element test ;; _add_tb_to_test test err
   else ret tt) ;;
  super (super_addError test err).

Definition addUnexpectedSuccess (now : T) (test : TestCase) : M unit :=
  take_case_time now ;;
  (if truthy xunit_filename then _make_testcase_element test else ret tt) ;;
  super (super_addUnexpectedSuccess test).

Definition addSkip (now : T) (test : TestCase) (reason : string) : M unit :=
  take_case_time now ;;
  (if truthy xunit_filename then _make_testcase_element test else ret tt) ;;
  super (super_addSkip test reason).

Definition addExpectedFailure (now : T) (test : TestCase) (err : exc_info) : M unit :=
  take_case_time now ;;
  (if truthy xunit_filename
   then _make_testcase_element test ;; _add_tb_to_test test err
   else ret tt) ;;
  super (super_addExpectedFailure test err).

Definition startTestRun (now : T) : M unit :=
  (if truthy xunit_filename then
     (do f <- fopen xunit_filename ModeW;
      fwrite f "<html>" ;;
      fclose f ;;
      fclose f)
   else ret tt) ;;
  set_run_start_time now ;;
  super super_startTestRun.

Definition stopTestRun (now : T) : M unit :=
  do start <- read_attr "run_start_time" run_start_time;
  let run_time_taken := fsub now start in
  (if truthy xunit_filename then
     (do f <- fopen xunit_filename ModeA;
      fwrite f "<h1>Result:</h1>" ;;
      fwrite f "<ul>" ;;
      fwrite f "<li>name: Dispatch</li>" ;;
      (do l <- read_base errors;
       fwrite f ("<li>errors: " +:+ PyRepr.str_of_list l +:+ "</li>")) ;;
      (do l <- read_base failures;
       fwrite f ("<li>failures: " +:+ PyRepr.str_of_list l +:+ "</li>")) ;;
      (do l <- read_base skipped;
       fwrite f ("<li>skips: " +:+ PyRepr.str_of_list l +:+ "</li>")) ;;
      (do n <- read_base testsRun;
       fwrite f ("<li>tests: " +:+ Py.str_of_nat n +:+ "</li>")) ;;
      fwrite f ("<li>time: " +:+ fstr run_time_taken +:+ "</li>") ;;
      fwrite f "</ul>" ;;
      fclose f ;;
      fclose f)
   else ret tt) ;;
  (if truthy xunit_filename then
     (do f <- fopen xunit_filename ModeA;
      fwrite f "</html>" ;;
      fclose f ;;
      fclose f)
   else ret tt) ;;
  super super_stopTestRun.

(** *** The callbacks as the engine drives them *)

(** The six callbacks that end a test. *)
Inductive terminal : Type :=
| Success (test : TestCase)
| Failure (test : TestCase) (err : exc_info)
| Error (test : TestCase) (err : exc_info)
| UnexpectedSuccess (test : TestCase)
| Skip (test : TestCase) (reason : string)
| ExpectedFailure (test : TestCase) (err : exc_info).

Inductive event : Type :=
| StartTestRun
| StartTest (test : TestCase)
| Terminal (e : terminal)
| StopTestRun.

Definition add_terminal (now : T) (e : terminal) : M unit :=
  match e with
  | Success test => addSuccess now test
  | Failure test err => addFailure now test err
  | Error test err => addError now test err
  | UnexpectedSuccess test => addUnexpectedSuccess now test
  | Skip test reason => addSkip now test reason
  | ExpectedFailure test err => addExpectedFailure now test err
  end.

(** The inherited method that belongs to each, with its arguments. *)
Definition super_terminal (e : terminal) : B -> B :=
  match e with
  | Success test => super_addSuccess test
  | Failure test err => super_addFailure test err
  | Error test err => super_addError test err
  | UnexpectedSuccess test => super_addUnexpectedSuccess test
  | Skip test reason => super_addSkip test reason
  | ExpectedFailure test err => super_addExpectedFailure test err
  end.

Definition callback (c : T * event) : M unit :=
  let (now, e) := c in
  match e with
  | StartTestRun => startTestRun now
  | StartTest test => startTest now test
  | Terminal e => add_terminal now e
  | StopTestRun => stopTestRun now
  end.

(** A sequence of callbacks; an exception ends it. *)
Fixpoint callbacks (cs : list (T * event)) : M unit :=
  match cs with
  | [] => ret tt
  | c :: cs' => callback c ;; callbacks cs'
  end.
End Sink.

(** ** Instances to run the model on *)

(** A clock that reads whole seconds; [str(2.0)] is ['2.0']. *)
#[global] Instance whole_seconds : PyFloat nat := {|
  fsub := Nat.sub;
  fstr := fun n => Py.str_of_nat n +:+ ".0";
|}.

(** A [TextTestResult] after [unittest]'s, at verbosity 1: the result lists,
    the counter of tests, the progress characters written to the stream,
    and a log of the inherited methods that were reached, oldest first. *)
Record unittest_result : Type := {
  u_descriptions : bool;
  u_errors : list (TestCase * string);
  u_failures : list (TestCase * string);
  u_skipped : list (TestCase * string);
  u_expectedFailures : list (TestCase * string);
  u_unexpectedSuccesses : list TestCase;
  u_testsRun : nat;
  u_stream : string;
  u_log : list event;
}.

Definition u_init (descr : bool) : unittest_result :=
  {| u_descriptions := descr; u_errors := []; u_failures := []; u_skipped := [];
     u_expectedFailures := []; u_unexpectedSuccesses := []; u_testsRun := 0;
     u_stream := EmptyString; u_log := [] |}.

(** After [traceback.format_exception]. *)
Definition u_exc_info_to_string (err : exc_info) (test : TestCase) : string :=
  String.concat (String (ascii_of_nat 10) EmptyString)
    ("Traceback (most recent call last):" :: exc_tb err
     ++ [exc_class_name err +:+ ": " +:+ exc_value_str err]).

(** One inherited method: what it appends to each list, adds to the
    counter, writes to the stream, and its entry in the log. *)
Definition u_reach (e : event)
    (errs fails skips xfails : list (TestCase * string)) (usucc : list TestCase)
    (run : nat) (out : string) (r : unittest_result) : unittest_result :=
  {| u_descriptions := u_descriptions r;
     u_errors := u_errors r ++ errs;
     u_failures := u_failures r ++ fails;
     u_skipped := u_skipped r ++ skips;
     u_expectedFailures := u_expectedFailures r ++ xfails;
     u_unexpectedSuccesses := u_unexpectedSuccesses r ++ usucc;
     u_testsRun := u_testsRun r + run;
     u_stream := u_stream r +:+ out;
     u_log := u_log r ++ [e] |}.

#[global] Instance unittest_TextTestResult : TextTestResult unittest_result := {|
  descriptions := u_descriptions;
  errors := u_errors;
  failures := u_failures;
  skipped := u_skipped;
  testsRun := u_testsRun;
  _exc_info_to_string := fun _ => u_exc_info_to_string;
  super_startTest := fun t => u_reach (StartTest t) [] [] [] [] [] 1 EmptyString;
  super_addSuccess := fun t => u_reach (Terminal (Success t)) [] [] [] [] [] 0 ".";
  super_addFailure := fun t err =>
    u_reach (Terminal (Failure t err)) [] [(t, u_exc_info_to_string err t)] [] [] [] 0 "F";
  super_addError := fun t err =>
    u_reach (Terminal (Error t err)) [(t, u_exc_info_to_string err t)] [] [] [] [] 0 "E";
  super_addUnexpectedSuccess := fun t =>
    u_reach (Terminal (UnexpectedSuccess t)) [] [] [] [] [t] 0 "u";
  super_addSkip := fun t reason =>
    u_reach (Terminal (Skip t reason)) [] [] [(t, reason)] [] [] 0 "s";
  super_addExpectedFailure := fun t err =>
    u_reach (Terminal (ExpectedFailure t err)) [] [] [] [(t, u_exc_info_to_string err t)] [] 0 "x";
  super_startTestRun := u_reach StartTestRun [] [] [] [] [] 0 EmptyString;
  super_stopTestRun := u_reach StopTestRun [] [] [] [] [] 0 EmptyString;
|}.

(** The world before a run: a fresh result object and a disk. *)
Definition world0 {T} (descr : bool) (d : gmap string string) : World T unittest_result :=
  {| self := fresh (u_init descr); disk := d |}.

(** ** What the specification says, in its own words *)

Module Spec.

(** Section 4.1: the applications are removed by their leaf identifier. *)
Definition select_targets (apps explicit_targets excluded_apps : list string)
    (test_all_override : bool) : list string :=
  match explicit_targets with
  | _ :: _ => explicit_targets
  | [] =>
      let excluded := if test_all_override then [] else excluded_apps in
      map leaf
        (List.filter
           (fun x => negb (Py.contains (leaf x) excluded) && negb (is_contrib x))
           apps)
  end.

(** Section 6: of the two setting names, the first one found wins. *)
Definition report_path (settings : Settings) : pyval :=
  match HOTRUNNER_XUNIT_FILENAME settings with
  | Some v => v
  | None => getattr (JUXD_FILENAME settings) PyNone
  end.

(** Section 4.2: [name (app.suite.name)], the first and the last token as
    app and suite, the first as the name. *)
Definition fallback_description (tokens : list string) : option string :=
  match tokens with
  | [] => None
  | first :: _ =>
      let app := first in
      let suite := List.last tokens first in
      let name := first in
      Some (name +:+ " (" +:+ app +:+ "." +:+ suite +:+ "." +:+ name +:+ ")")
  end.

(** Section 4.2, run stop: a summary entry with the error, failure, skip
    and total-test counts and the elapsed time, in the artifact's markup. *)
Definition summary `{PyFloat T} (n_errors n_failures n_skips n_tests : nat)
    (elapsed : T) : string :=
  "<h1>Result:</h1><ul><li>name: Dispatch</li>"
  +:+ "<li>errors: " +:+ Py.str_of_nat n_errors +:+ "</li>"
  +:+ "<li>failures: " +:+ Py.str_of_nat n_failures +:+ "</li>"
  +:+ "<li>skips: " +:+ Py.str_of_nat n_skips +:+ "</li>"
  +:+ "<li>tests: " +:+ Py.str_of_nat n_tests +:+ "</li>"
  +:+ "<li>time: " +:+ fstr elapsed +:+ "</li></ul>".

End Spec.

(** ** Sample inputs *)

Module Sample.

Definition apps : list string :=
  ["django.contrib.auth"; "myproj.polls"; "blog"; "django.contrib.admin"; "shop.cart"].

(** Exclusions, no override, no report. *)
Definition settings_excluding : Settings :=
  {| INSTALLED_APPS := apps;
     EXCLUDED_TEST_APPS := Some ["blog"; "polls"];
     TEST_ALL_APPS := None;
     HOTRUNNER_XUNIT_FILENAME := None;
     JUXD_FILENAME := None |}.

(** The same with the override. *)
Definition settings_all : Settings :=
  {| INSTALLED_APPS := apps;
     EXCLUDED_TEST_APPS := Some ["blog"; "polls"];
     TEST_ALL_APPS := Some true;
     HOTRUNNER_XUNIT_FILENAME := None;
     JUXD_FILENAME := None |}.

(** A report under the first setting name. *)
Definition settings_report : Settings :=
  {| INSTALLED_APPS := apps;
     EXCLUDED_TEST_APPS := None;
     TEST_ALL_APPS := None;
     HOTRUNNER_XUNIT_FILENAME := Some (PyStr "report.html");
     JUXD_FILENAME := None |}.

(** The first setting name present and empty, the second one set. *)
Definition settings_empty_first : Settings :=
  {| INSTALLED_APPS := apps;
     EXCLUDED_TEST_APPS := None;
     TEST_ALL_APPS := None;
     HOTRUNNER_XUNIT_FILENAME := Some (PyStr EmptyString);
     JUXD_FILENAME := Some (PyStr "juxd.html") |}.

(** An engine that returns the labels it was given. *)
Definition engine (labels : list string) (extra_tests : unit) (kwargs : unit) : list string :=
  labels.

Definition t_vote : TestCase :=
  {| test_module := "polls.tests"; test_class_name := "PollTest";
     _testMethodName := "test_vote";
     test_str := "test_vote (polls.tests.PollTest)";
     test_repr := "<polls.tests.PollTest testMethod=test_vote>";
     shortDescription := PyNone |}.

Definition t_index : TestCase :=
  {| test_module := "polls.tests"; test_class_name := "PollTest";
     _testMethodName := "test_index";
     test_str := "test_index (polls.tests.PollTest)";
     test_repr := "<polls.tests.PollTest testMethod=test_index>";
     shortDescription := PyStr "The index page lists the polls." |}.

(** A test whose class prints it as its method name alone. *)
Definition t_bare : TestCase :=
  {| test_module := "polls.tests"; test_class_name := "Smoke";
     _testMethodName := "runTest";
     test_str := "runTest";
     test_repr := "<polls.tests.Smoke testMethod=runTest>";
     shortDescription := PyNone |}.

Definition assertion : exc_info :=
  {| exc_class_module := "exceptions"; exc_class_name := "AssertionError";
     exc_value_str := "1 != 2";
     exc_tb := ["  File tests.py, line 3, in test_vote"] |}.

(** One failing and one passing test, with the clock readings. *)
Definition run_one_failure : list (nat * event) :=
  [(10, StartTestRun);
   (10, StartTest t_vote); (12, Terminal (Failure t_vote assertion));
   (12, StartTest t_index); (13, Terminal (Success t_index));
   (15, StopTestRun)].

(** The world when [t_vote] has been started in a run. *)
Definition started (settings : Settings) : World nat unittest_result :=
  snd (callbacks settings [(10, StartTestRun); (10, StartTest t_vote)] (world0 true ∅)).

(** The world of that run with a report, when [stopTestRun] is due. *)
Definition before_stop : World nat unittest_result :=
  snd (callbacks settings_report (removelast run_one_failure) (world0 true ∅)).

(** The report at that point. *)
Definition report_before_stop : string :=
  default EmptyString (disk before_stop !! "report.html").


End Sample.

(** ** The report, block by block *)

(** Appending to a file of the disk; a file that is not there is created. *)
Definition append_file (p s : string) (d : gmap string string) : gmap string string :=
  <[p := default EmptyString (d !! p) +:+ s]> d.

(** The test a terminal callback is about. *)
Definition test_of (e : terminal) : TestCase :=
  match e with
  | Success test => test
  | Failure test _ => test
  | Error test _ => test
  | UnexpectedSuccess test => test
  | Skip test _ => test
  | ExpectedFailure test _ => test
  end.

(** The exception triple of the callbacks that carry one. *)
Definition err_of (e : terminal) : option exc_info :=
  match e with
  | Failure _ err => Some err
  | Error _ err => Some err
  | ExpectedFailure _ err => Some err
  | Success _ => None
  | UnexpectedSuccess _ => None
  | Skip _ _ => None
  end.

(** The inherited method behind each callback. *)
Definition super_event {B : Type} `{TextTestResult B} (e : event) : B -> B :=
  match e with
  | StartTestRun => super_startTestRun
  | StartTest test => super_startTest test
  | Terminal e => super_terminal e
  | StopTestRun => super_stopTestRun
  end.

Module Report.

(** The writes of [_make_testcase_element], in order. *)
Definition element {T : Type} `{PyFloat T} (taken : T) (test : TestCase) : string :=
  "<div>"
  +:+ ("<font color=" +:+ q +:+ "green" +:+ q +:+ ">")
  +:+ ("time - " +:+ fstr taken +:+ "; ")
  +:+ ("classname - " +:+ test_module test +:+ "." +:+ test_class_name test +:+ "; ")
  +:+ ("name - " +:+ _testMethodName test +:+ "; ")
  +:+ "</font>"
  +:+ "</div>".

(** The writes of [_add_tb_to_test], in order. *)
Definition traceback {B : Type} `{TextTestResult B} (b : B) (test : TestCase) (err : exc_info) : string :=
  ("<font color=" +:+ q +:+ "red" +:+ q +:+ ">")
  +:+ ("<p>message - " +:+ exc_value_str err +:+ "</p>")
  +:+ ("<p>type - " +:+ exc_class_module err +:+ " " +:+ exc_class_name err +:+ "</p>")
  +:+ ("<p>text - " +:+ _exc_info_to_string b err test +:+ "</p>")
  +:+ "</font>".

(** What one terminal callback writes. *)
Definition entry {T B : Type} `{PyFloat T} `{TextTestResult B}
    (b : B) (taken : T) (e : terminal) : string :=
  element taken (test_of e)
  +:+ match err_of e with
      | Some err => traceback b (test_of e) err
      | None => EmptyString
      end.

(** The writes of [stopTestRun], in order. *)
Definition closing {T B : Type} `{PyFloat T} `{TextTestResult B} (b : B) (elapsed : T) : string :=
  "<h1>Result:</h1>" +:+ "<ul>" +:+ "<li>name: Dispatch</li>"
  +:+ ("<li>errors: " +:+ PyRepr.str_of_list (errors b) +:+ "</li>")
  +:+ ("<li>failures: " +:+ PyRepr.str_of_list (failures b) +:+ "</li>")
  +:+ ("<li>skips: " +:+ PyRepr.str_of_list (skipped b) +:+ "</li>")
  +:+ ("<li>tests: " +:+ Py.str_of_nat (testsRun b) +:+ "</li>")
  +:+ ("<li>time: " +:+ fstr elapsed +:+ "</li>")
  +:+ "</ul>" +:+ "</html>".

End Report.

(** ** Runs as the engine makes them *)

(** One test of a run: the clock at [startTest], the clock at the terminal
    callback, and that callback. *)
Definition test_events {T : Type} (item : T * T * terminal) : list (T * event) :=
  let '(t0, t1, e) := item in
  [(t0, StartTest (test_of e)); (t1, Terminal e)].

(** A whole run: run start, the tests one after the other, run stop. *)
Definition engine_run {T : Type} (t_begin : T) (items : list (T * T * terminal)) (t_end : T)
    : list (T * event) :=
  (t_begin, StartTestRun) :: flat_map test_events items ++ [(t_end, StopTestRun)].

(** The inherited part after the tests of a run. *)
Fixpoint base_after_tests {T B : Type} `{TextTestResult B}
    (b : B) (items : list (T * T * terminal)) : B :=
  match items with
  | [] => b
  | (_, _, e) :: rest =>
      base_after_tests (super_terminal e (super_startTest (test_of e) b)) rest
  end.

(** The entries the tests of a run write. *)
Fixpoint entries {T B : Type} `{PyFloat T} `{TextTestResult B}
    (b : B) (items : list (T * T * terminal)) : string :=
  match items with
  | [] => EmptyString
  | (t0, t1, e) :: rest =>
      let b1 := super_startTest (test_of e) b in
      Report.entry b1 (fsub t1 t0) e +:+ entries (super_terminal e b1) rest
  end.

(** The result object after a terminal callback that took [taken]. *)
Definition after_terminal {T B : Type} `{TextTestResult B}
    (r : HotRunnerTestResult T B) (taken : T) (e : terminal) : HotRunnerTestResult T B :=
  {| base := super_terminal e (base r);
     case_start_time := case_start_time r;
     case_time_taken := Some taken;
     run_start_time := run_start_time r |}.

(** A non-empty string of word characters. *)
Definition is_token (s : string) : Prop :=
  s <> EmptyString /\ Forall (fun c => Py.is_word c = true) (list_ascii_of_string s).

(** ** The terminal callbacks when the report may fail to open *)

(** [open] raises [IOError] on a path that cannot be opened: a directory
    that is not there, a file that may not be written. [can_open] says
    which paths open. Nothing in the source catches the exception, so it
    leaves the callback at the [open]. With every path opening these are
    the callbacks of the section [Sink] (lemma [add_terminal_io_opens]). *)
Section SinkIO.
Context {T B : Type} `{PyFloat T} `{TextTestResult B}.
Variable can_open : string -> bool.
Variable settings : Settings.










End SinkIO.


(** * Properties *)

(** ** Python primitives *)

Lemma append_nil_l s : EmptyString +:+ s = s.
Proof. reflexivity. Qed.

Lemma append_cons c s t : String c s +:+ t = String c (s +:+ t).
Proof. reflexivity. Qed.

Lemma append_nil_r s : s +:+ EmptyString = s.
Proof. induction s as [|c s IH]; [reflexivity|]. now rewrite append_cons, IH. Qed.

Lemma append_assoc s t u : (s +:+ t) +:+ u = s +:+ (t +:+ u).
Proof. induction s as [|c s IH]; [reflexivity|]. now rewrite !append_cons, IH. Qed.

Lemma split_nonempty sep s : Py.split sep s <> [].
Proof.
  destruct s as [|c s]; simpl; [discriminate|].
  destruct (Ascii.eqb c sep); [discriminate|].
  destruct (Py.split sep s); discriminate.
Qed.

Lemma join_split sep s : Py.join (String sep EmptyString) (Py.split sep s) = s.
Proof.
  induction s as [|c s IH]; simpl; [reflexivity|].
  pose proof (split_nonempty sep s) as Hne.
  destruct (Ascii.eqb c sep) eqn:E.
  - apply Ascii.eqb_eq in E. subst c.
    destruct (Py.split sep s) as [|h t]; [congruence|].
    simpl in *. now rewrite IH.
  - destruct (Py.split sep s) as [|h t]; [congruence|].
    destruct t as [|h' t]; simpl in *; now rewrite <- IH.
Qed.

Lemma split_no_sep sep s x :
  In x (Py.split sep s) -> ~ In sep (list_ascii_of_string x).
Proof.
  revert x. induction s as [|c s IH]; simpl; intros x Hx.
  - destruct Hx as [<-|[]]. simpl. tauto.
  - destruct (Ascii.eqb c sep) eqn:E.
    + destruct Hx as [<-|Hx]; [simpl; tauto | now apply IH].
    + apply Ascii.eqb_neq in E.
      pose proof (split_nonempty sep s) as Hne.
      destruct (Py.split sep s) as [|h t]; [congruence|].
      destruct Hx as [<-|Hx].
      * simpl. intros [->|Hin]; [congruence|]. apply (IH h); [now left | exact Hin].
      * apply IH. now right.
Qed.

Lemma join_last sep l z :
  l <> [] -> Py.join sep (l ++ [z]) = Py.join sep l +:+ sep +:+ z.
Proof.
  induction l as [|x l IH]; [congruence|]. intros _.
  destruct l as [|y l]; [reflexivity|].
  change (Py.join sep ((x :: y :: l) ++ [z]))
    with (x +:+ sep +:+ Py.join sep ((y :: l) ++ [z])).
  rewrite IH by discriminate.
  change (Py.join sep (x :: y :: l)) with (x +:+ sep +:+ Py.join sep (y :: l)).
  now rewrite !append_assoc.
Qed.

(** The leaf of a dotted name has no dot, and the name is the leaf or ends
    in a dot and the leaf. *)
Lemma leaf_no_dot x : ~ In "."%char (list_ascii_of_string (leaf x)).
Proof.
  unfold leaf. apply (split_no_sep "."%char x).
  pose proof (split_nonempty "." x) as Hne.
  destruct (exists_last Hne) as (l & z & ->).
  rewrite last_last. apply in_or_app. right. now left.
Qed.

Lemma leaf_suffix x : x = leaf x \/ exists parent, x = parent +:+ "." +:+ leaf x.
Proof.
  unfold leaf.
  pose proof (join_split "." x) as Hj.
  pose proof (split_nonempty "." x) as Hne.
  destruct (exists_last Hne) as (l & z & Hl).
  rewrite Hl in *. rewrite last_last.
  destruct l as [|y l].
  - left. now rewrite <- Hj.
  - right. exists (Py.join "." (y :: l)). rewrite <- Hj at 1.
    now apply join_last.
Qed.

Lemma startswith_iff s p : Py.startswith s p = true <-> exists r, s = p +:+ r.
Proof.
  unfold Py.startswith. revert s. induction p as [|c p IH]; intros s.
  - split; [intros _; now exists s | intros _; now destruct s].
  - destruct s as [|d s]; simpl.
    + split; [discriminate | intros [r Hr]; discriminate].
    + destruct (Ascii.ascii_dec c d) as [->|Hne].
      * rewrite IH. split; intros [r Hr]; exists r; rewrite append_cons in *; congruence.
      * split; [discriminate | intros [r Hr]; rewrite append_cons in Hr; congruence].
Qed.

Lemma contains_In x l : Py.contains x l = true <-> In x l.
Proof.
  unfold Py.contains. rewrite existsb_exists. split.
  - intros (y & Hy & E). apply String.eqb_eq in E. now subst.
  - intros Hx. exists x. split; [assumption | apply String.eqb_refl].
Qed.

Lemma contains_nil x : Py.contains x [] = false.
Proof. reflexivity. Qed.

(** ** The suite selector *)

(** C1: explicit labels, when there are any, reach the inherited
    [run_tests] unchanged, whatever the exclusion settings and the override
    are. *)
Theorem run_tests_explicit_labels_unchanged
    {Extra Kwargs R : Type} (super_run_tests : list string -> Extra -> Kwargs -> R)
    (settings : Settings) (test_labels : list string) (extra_tests : Extra) (kwargs : Kwargs) :
  test_labels <> [] ->
  run_tests super_run_tests settings test_labels extra_tests kwargs
  = super_run_tests test_labels extra_tests kwargs.
Proof.
  intros Hne. unfold run_tests.
  destruct test_labels as [|l ls]; [congruence | reflexivity].
Qed.

Lemma run_tests_explicit_labels_unchanged_witness :
  ["blog"; "django.contrib.auth"] <> []
  /\ run_tests Sample.engine Sample.settings_excluding ["blog"; "django.contrib.auth"] tt tt
     = ["blog"; "django.contrib.auth"].
Proof.
  split; [discriminate|].
  apply (run_tests_explicit_labels_unchanged Sample.engine Sample.settings_excluding).
  discriminate.
Defined.

(** The applications that stay when no label is given: those that are not
    listed, by the name they are configured under, and that are not under
    [django.contrib.]. *)
Lemma kept_iff (excluded apps : list string) (x : string) :
  In x (List.filter (fun x => negb (Py.contains x excluded) && negb (is_contrib x)) apps)
  <-> In x apps /\ ~ In x excluded /\ is_contrib x = false.
Proof.
  rewrite filter_In, andb_true_iff, !negb_true_iff.
  rewrite <- (contains_In x excluded).
  destruct (Py.contains x excluded); intuition congruence.
Qed.

(** C2, as the code has it: with no label and no override, an application
    is left out when the name it is configured under is in
    [EXCLUDED_TEST_APPS] or starts with [django.contrib.]; the labels are the
    leaves of the others, in order. *)
Theorem run_tests_excludes_by_configured_name
    {Extra Kwargs R : Type} (super_run_tests : list string -> Extra -> Kwargs -> R)
    (settings : Settings) (extra_tests : Extra) (kwargs : Kwargs) :
  getattr (TEST_ALL_APPS settings) false = false ->
  exists kept : list string,
    run_tests super_run_tests settings [] extra_tests kwargs
    = super_run_tests (map leaf kept) extra_tests kwargs
    /\ kept = List.filter
                (fun x => negb (Py.contains x (getattr (EXCLUDED_TEST_APPS settings) []))
                          && negb (is_contrib x))
                (INSTALLED_APPS settings)
    /\ forall x, In x kept <->
         In x (INSTALLED_APPS settings)
         /\ ~ In x (getattr (EXCLUDED_TEST_APPS settings) [])
         /\ ~ (exists r, x = "django.contrib." +:+ r).
Proof.
  intros Hno. eexists. split; [|split; [reflexivity|]].
  - unfold run_tests. simpl. now rewrite Hno.
  - intros x. rewrite kept_iff. unfold is_contrib.
    rewrite <- startswith_iff. destruct (Py.startswith x "django.contrib."); intuition congruence.
Qed.

Lemma run_tests_excludes_by_configured_name_witness :
  getattr (TEST_ALL_APPS Sample.settings_excluding) false = false
  /\ run_tests Sample.engine Sample.settings_excluding [] tt tt = ["polls"; "cart"].
Proof.
  split; [reflexivity|].
  destruct (run_tests_excludes_by_configured_name
              Sample.engine Sample.settings_excluding tt tt eq_refl) as (kept & Hrun & Hkept & _).
  rewrite Hrun, Hkept. reflexivity.
Defined.

(** C2 as it is stated fails: [myproj.polls] is configured, its leaf [polls]
    is in the exclusion list, there is no override and no label, and [polls]
    is still among the labels the engine gets; removing by leaf, as the
    specification words it, gives another list. *)
Lemma run_tests_keeps_excluded_leaf :
  In "myproj.polls" (INSTALLED_APPS Sample.settings_excluding)
  /\ In (leaf "myproj.polls") (getattr (EXCLUDED_TEST_APPS Sample.settings_excluding) [])
  /\ getattr (TEST_ALL_APPS Sample.settings_excluding) false = false
  /\ In (leaf "myproj.polls") (run_tests Sample.engine Sample.settings_excluding [] tt tt)
  /\ run_tests Sample.engine Sample.settings_excluding [] tt tt
     <> Spec.select_targets (INSTALLED_APPS Sample.settings_excluding) []
          (getattr (EXCLUDED_TEST_APPS Sample.settings_excluding) []) false.
Proof.
  repeat split; try (vm_compute; tauto). vm_compute. discriminate.
Qed.

(** C3: with no label and the override, the labels are the leaves of the
    configured applications that are not under [django.contrib.], in order;
    the exclusion list removes nothing. *)
Theorem run_tests_override_ignores_exclusions
    {Extra Kwargs R : Type} (super_run_tests : list string -> Extra -> Kwargs -> R)
    (settings : Settings) (extra_tests : Extra) (kwargs : Kwargs) :
  getattr (TEST_ALL_APPS settings) false = true ->
  run_tests super_run_tests settings [] extra_tests kwargs
  = super_run_tests
      (map leaf (List.filter (fun x => negb (is_contrib x)) (INSTALLED_APPS settings)))
      extra_tests kwargs.
Proof.
  intros Hall. unfold run_tests. simpl. rewrite Hall. reflexivity.
Qed.

Lemma run_tests_override_ignores_exclusions_witness :
  getattr (TEST_ALL_APPS Sample.settings_all) false = true
  /\ run_tests Sample.engine Sample.settings_all [] tt tt = ["polls"; "blog"; "cart"].
Proof.
  split; [reflexivity|].
  rewrite (run_tests_override_ignores_exclusions Sample.engine Sample.settings_all tt tt eq_refl).
  reflexivity.
Defined.

(** ** The result sink *)


(** ** The result sink *)

(** Runs the callbacks down to the state they build. The report path and
    its truth value stay folded, and so do the operations of the disk. *)
Ltac callback_run :=
  cbv beta iota zeta delta
    [callback add_terminal startTest addSuccess addFailure addError
     addUnexpectedSuccess addSkip addExpectedFailure startTestRun stopTestRun
     _make_testcase_element _add_tb_to_test take_case_time
     set_case_start_time set_case_time_taken set_run_start_time super
     update_self read_attr read_base fopen fwrite fclose bind ret raise
     self disk base case_start_time case_time_taken run_start_time fst snd].

(** The same, once the report path is known. *)
Ltac callback_run_path :=
  cbv beta iota zeta delta
    [truthy Py.truthy_str fopen fwrite fclose bind ret raise read_attr read_base
     update_self super set_case_time_taken
     self disk base case_start_time case_time_taken run_start_time fst snd].

Section SinkFacts.
Context {T B : Type} `{PyFloat T} `{TextTestResult B}.
Variable settings : Settings.

(** A terminal callback on a started test returns, and leaves the
    inherited part as the inherited method of that callback, applied once
    to the arguments of the callback, leaves it. *)
Lemma add_terminal_delegates (e : terminal) (now t0 : T) (w : World T B) :
  case_start_time (self w) = Some t0 ->
  exists w',
    add_terminal settings now e w = (Returns tt, w')
    /\ base (self w') = super_terminal e (base (self w))
    /\ case_time_taken (self w') = Some (fsub now t0).
Proof.
  intros Hstart. destruct w as [[b cst ctt rst] d].
  cbn [self case_start_time] in Hstart. subst cst.
  destruct e; callback_run;
    destruct (xunit_filename settings) as [|[|c p]]; callback_run_path;
    eexists; (split; [reflexivity | split; reflexivity]).
Qed.

(** With no path configured, no callback changes the disk, whether it
    returns or raises. *)
Lemma callback_disk_unchanged (c : T * event) (w : World T B) :
  truthy (xunit_filename settings) = false ->
  disk (snd (callback settings c w)) = disk w.
Proof.
  intros Hpath. destruct w as [[b cst ctt rst] d].
  destruct c as [now [| test | e |]].
  - callback_run. rewrite Hpath. reflexivity.
  - reflexivity.
  - destruct e; callback_run; rewrite Hpath; destruct cst; reflexivity.
  - callback_run. rewrite Hpath. destruct rst; reflexivity.
Qed.

(** Only [startTest] assigns [case_start_time]. *)
Lemma callback_keeps_case_start_time (c : T * event) (w : World T B) :
  (forall test, snd c <> StartTest test) ->
  case_start_time (self (snd (callback settings c w))) = case_start_time (self w).
Proof.
  intros Hc. destruct w as [[b cst ctt rst] d].
  destruct c as [now [| test | e |]]; cbn [snd] in Hc.
  - callback_run.
    destruct (xunit_filename settings) as [|[|c p]]; reflexivity.
  - now destruct (Hc test).
  - destruct e; callback_run; destruct cst;
      destruct (xunit_filename settings) as [|[|c p]]; reflexivity.
  - callback_run. destruct rst;
      destruct (xunit_filename settings) as [|[|c p]]; reflexivity.
Qed.
End SinkFacts.

(** On the reference result, the log of inherited methods grows by the one
    entry of the callback, and the counters and the stream are those a run
    without a report has. *)
Lemma terminal_callback_logged_once
    {T : Type} `{PyFloat T} (settings : Settings) (e : terminal) (now t0 : T)
    (w : World T unittest_result) :
  case_start_time (self w) = Some t0 ->
  exists w',
    add_terminal settings now e w = (Returns tt, w')
    /\ u_log (base (self w')) = u_log (base (self w)) ++ [Terminal e].
Proof.
  intros Hstart.
  destruct (add_terminal_delegates settings e now t0 w Hstart) as (w' & Hrun & Hbase & _).
  exists w'. split; [assumption|]. rewrite Hbase. now destruct e.
Qed.

(** C5: with no report path configured, no sequence of callbacks, run
    start, test start, the six terminal ones and run stop in any order,
    creates or writes a file: the disk after it is the disk before it,
    whether the sequence returns or raises. *)
Theorem no_report_path_no_disk_effect
    {T B : Type} `{PyFloat T} `{TextTestResult B}
    (settings : Settings) (cs : list (T * event)) (w : World T B) :
  truthy (xunit_filename settings) = false ->
  disk (snd (callbacks settings cs w)) = disk w.
Proof.
  intros Hpath. revert w.
  induction cs as [|c cs IH]; intros w; [reflexivity|].
  pose proof (callback_disk_unchanged settings c w Hpath) as Hc.
  simpl. unfold bind.
  destruct (callback settings c w) as [[[]|e] w'] eqn:Hrun; simpl in Hc.
  - rewrite IH. exact Hc.
  - exact Hc.
Qed.

Lemma no_report_path_no_disk_effect_witness :
  truthy (xunit_filename Sample.settings_excluding) = false
  /\ disk (snd (callbacks Sample.settings_excluding Sample.run_one_failure
                  (world0 true {[ "notes.txt" := "kept" ]})))
     = disk (world0 (T:=nat) true {[ "notes.txt" := "kept" ]}).
Proof.
  split; [reflexivity|].
  apply (no_report_path_no_disk_effect Sample.settings_excluding Sample.run_one_failure
           (world0 true {[ "notes.txt" := "kept" ]})).
  reflexivity.
Defined.

(** Callbacks other than [startTest] leave [case_start_time] as it is, so
    on a result that has started no test the attribute does not exist. *)
Lemma never_started_no_case_start_time
    {T B : Type} `{PyFloat T} `{TextTestResult B}
    (settings : Settings) (cs : list (T * event)) (w : World T B) :
  Forall (fun c => forall test, snd c <> StartTest test) cs ->
  case_start_time (self w) = None ->
  case_start_time (self (snd (callbacks settings cs w))) = None.
Proof.
  intros Hcs. revert w. induction Hcs as [|c cs Hc Hcs IH]; intros w Hw; [exact Hw|].
  pose proof (callback_keeps_case_start_time settings c w Hc) as Hkeep.
  simpl. unfold bind.
  destruct (callback settings c w) as [[[]|e] w'] eqn:Hrun; simpl in Hkeep.
  - apply IH. congruence.
  - simpl. congruence.
Qed.

(** C10: on a result whose [case_start_time] was never assigned, each of
    the six terminal callbacks raises [AttributeError] on that attribute,
    under any settings; no elapsed time is recorded, nothing is written and
    the inherited method is not reached. *)
Theorem terminal_callback_requires_startTest
    {T B : Type} `{PyFloat T} `{TextTestResult B}
    (settings : Settings) (e : terminal) (now : T) (w : World T B) :
  case_start_time (self w) = None ->
  add_terminal settings now e w = (Raises (AttributeError "case_start_time"), w).
Proof.
  intros Hnone.
  destruct e; unfold add_terminal, addSuccess, addFailure, addError, addUnexpectedSuccess,
    addSkip, addExpectedFailure, take_case_time, read_attr, bind;
    rewrite Hnone; reflexivity.
Qed.

Lemma terminal_callback_requires_startTest_witness :
  case_start_time (self (world0 (T:=nat) true ∅)) = None
  /\ add_terminal Sample.settings_report 12 (Success Sample.t_index) (world0 true ∅)
     = (Raises (AttributeError "case_start_time"), world0 true ∅).
Proof.
  split; [reflexivity|].
  apply (terminal_callback_requires_startTest Sample.settings_report
           (Success Sample.t_index) 12 (world0 true ∅)).
  reflexivity.
Defined.

(** ** The report path *)

(** C7, as the code has it: the value of the first setting is the path when
    it is a non-empty string; when the first setting is absent, [None] or
    empty, the result is the value of the second one ([None] when that one
    is absent). *)
Theorem xunit_filename_first_truthy_wins (settings : Settings) :
  (forall p, HOTRUNNER_XUNIT_FILENAME settings = Some (PyStr p) -> p <> EmptyString ->
             xunit_filename settings = PyStr p)
  /\ (HOTRUNNER_XUNIT_FILENAME settings = None
      \/ HOTRUNNER_XUNIT_FILENAME settings = Some PyNone
      \/ HOTRUNNER_XUNIT_FILENAME settings = Some (PyStr EmptyString) ->
      xunit_filename settings = getattr (JUXD_FILENAME settings) PyNone).
Proof.
  unfold xunit_filename, py_or. split.
  - intros p -> Hp. destruct p; [congruence | reflexivity].
  - intros [-> | [-> | ->]]; reflexivity.
Qed.

Lemma xunit_filename_first_truthy_wins_witness :
  xunit_filename Sample.settings_report = PyStr "report.html"
  /\ xunit_filename Sample.settings_empty_first = PyStr "juxd.html".
Proof.
  split.
  - apply (proj1 (xunit_filename_first_truthy_wins Sample.settings_report));
      [reflexivity | discriminate].
  - apply (proj2 (xunit_filename_first_truthy_wins Sample.settings_empty_first)).
    right. right. reflexivity.
Defined.

(** C7 as it is stated fails: the first setting is present, with the empty
    string as its value, and the path is the value of the second one. *)
Lemma xunit_filename_present_first_not_used :
  HOTRUNNER_XUNIT_FILENAME Sample.settings_empty_first = Some (PyStr EmptyString)
  /\ xunit_filename Sample.settings_empty_first = PyStr "juxd.html"
  /\ xunit_filename Sample.settings_empty_first <> PyStr EmptyString
  /\ xunit_filename Sample.settings_empty_first <> Spec.report_path Sample.settings_empty_first.
Proof. repeat split; try reflexivity; discriminate. Qed.

(** ** Test descriptions *)

Lemma nth_error_last {A} (l : list A) (d : A) :
  l <> [] -> nth_error l (List.length l - 1) = Some (List.last l d).
Proof.
  induction l as [|x l IH]; [congruence|]. intros _.
  destruct l as [|y l]; [reflexivity|].
  change (List.last (x :: y :: l) d) with (List.last (y :: l) d).
  rewrite <- IH by discriminate. simpl. now rewrite Nat.sub_0_r.
Qed.

Lemma getitem_0 {A} (x : A) (l : list A) : Py.getitem (x :: l) 0 = Some x.
Proof.
  unfold Py.getitem.
  replace (0 <? Z.of_nat (List.length (x :: l)))%Z with true; [reflexivity|].
  symmetry. apply Z.ltb_lt. simpl List.length. lia.
Qed.

Lemma getitem_1 {A} (x y : A) (l : list A) : Py.getitem (x :: y :: l) 1 = Some y.
Proof.
  unfold Py.getitem.
  replace (1 <? Z.of_nat (List.length (x :: y :: l)))%Z with true; [reflexivity|].
  symmetry. apply Z.ltb_lt. simpl List.length. lia.
Qed.

Lemma getitem_minus_1 {A} (l : list A) (d : A) :
  l <> [] -> Py.getitem l (-1) = Some (List.last l d).
Proof.
  intros Hne. unfold Py.getitem.
  assert (0 < List.length l) as Hlen by (destruct l; [congruence | simpl; lia]).
  replace (0 <=? -1)%Z with false by reflexivity.
  replace (- Z.of_nat (List.length l) <=? -1)%Z with true
    by (symmetry; apply Z.leb_le; lia).
  cbn [andb]. replace (-1 <? 0)%Z with true by reflexivity.
  replace (Z.to_nat (Z.of_nat (List.length l) + -1)) with (List.length l - 1) by lia.
  now apply nth_error_last.
Qed.

Lemma getitem_1_short {A} (l : list A) : List.length l < 2 -> Py.getitem l 1 = None.
Proof.
  intros Hlen. unfold Py.getitem.
  replace (1 <? Z.of_nat (List.length l))%Z with false
    by (symmetry; apply Z.ltb_ge; lia).
  replace (- Z.of_nat (List.length l) <=? 1)%Z with true
    by (symmetry; apply Z.leb_le; lia).
  reflexivity.
Qed.

(** C8, as the code has it: in the branch that parses [str(test)], with at
    least two tokens, the description is [name (app.suite.name)] where
    [name] is the first token, [app] the second and [suite] the last. *)
Theorem getDescription_parsed_format
    {T B : Type} `{TextTestResult B}
    (r : HotRunnerTestResult T B) (test : TestCase) (name app : string) (rest : list string) :
  descriptions (base r) && truthy (shortDescription test) = false ->
  Py.findall_words (test_str test) = name :: app :: rest ->
  getDescription r test
  = Returns (name +:+ " (" +:+ app +:+ "." +:+ List.last (app :: rest) app
             +:+ "." +:+ name +:+ ")").
Proof.
  intros Hbranch Htokens. unfold getDescription.
  rewrite Htokens, getitem_0, getitem_1.
  rewrite (getitem_minus_1 (name :: app :: rest) app) by discriminate.
  change (List.last (name :: app :: rest) app) with (List.last (app :: rest) app).
  destruct (shortDescription test) as [|d]; [reflexivity|].
  now rewrite Hbranch.
Qed.

Lemma getDescription_parsed_format_witness :
  descriptions (base (fresh (T:=nat) (u_init false)))
  && truthy (shortDescription Sample.t_index) = false
  /\ Py.findall_words (test_str Sample.t_index) = ["test_index"; "polls"; "tests"; "PollTest"]
  /\ getDescription (fresh (T:=nat) (u_init false)) Sample.t_index
     = Returns "test_index (polls.PollTest.test_index)".
Proof.
  split; [reflexivity|]. split; [reflexivity|].
  apply (getDescription_parsed_format (fresh (T:=nat) (u_init false)) Sample.t_index
           "test_index" "polls" ["tests"; "PollTest"]); reflexivity.
Defined.

(** C8 as it is stated fails: the app in the description is not the first
    token, which is the name of the test, but the second one. *)
Lemma getDescription_app_is_not_first_token :
  Py.findall_words (test_str Sample.t_vote) = ["test_vote"; "polls"; "tests"; "PollTest"]
  /\ getDescription (fresh (T:=nat) (u_init true)) Sample.t_vote
     = Returns "test_vote (polls.PollTest.test_vote)"
  /\ Spec.fallback_description (Py.findall_words (test_str Sample.t_vote))
     = Some "test_vote (test_vote.PollTest.test_vote)"
  /\ forall s, Spec.fallback_description (Py.findall_words (test_str Sample.t_vote)) = Some s ->
               getDescription (fresh (T:=nat) (u_init true)) Sample.t_vote <> Returns s.
Proof.
  split; [reflexivity|]. split; [reflexivity|]. split; [reflexivity|].
  intros s Hs. vm_compute in Hs. injection Hs as <-. vm_compute. discriminate.
Qed.

(** C9: in the branch that parses [str(test)], fewer than two tokens make
    [getDescription] raise [IndexError]; it returns no string. *)
Theorem getDescription_few_tokens_raises
    {T B : Type} `{TextTestResult B}
    (r : HotRunnerTestResult T B) (test : TestCase) :
  descriptions (base r) && truthy (shortDescription test) = false ->
  List.length (Py.findall_words (test_str test)) < 2 ->
  getDescription r test = Raises IndexError.
Proof.
  intros Hbranch Hlen. unfold getDescription.
  rewrite (getitem_1_short _ Hlen).
  destruct (shortDescription test) as [|d]; [reflexivity|].
  now rewrite Hbranch.
Qed.

Lemma getDescription_few_tokens_raises_witness :
  descriptions (base (fresh (T:=nat) (u_init true)))
  && truthy (shortDescription Sample.t_bare) = false
  /\ List.length (Py.findall_words (test_str Sample.t_bare)) < 2
  /\ getDescription (fresh (T:=nat) (u_init true)) Sample.t_bare = Raises IndexError.
Proof.
  split; [reflexivity|]. split; [vm_compute; lia|].
  apply (getDescription_few_tokens_raises (fresh (T:=nat) (u_init true)) Sample.t_bare).
  - reflexivity.
  - vm_compute. lia.
Defined.

(** ** The summary at run stop *)

(** What [stopTestRun] appends when a run was started and a path is
    configured: for the errors, the failures and the skips, [str] of the
    list the result holds; for the tests, the counter. *)
Lemma stopTestRun_appends
    {T B : Type} `{PyFloat T} `{TextTestResult B}
    (settings : Settings) (now t0 : T) (w : World T B) (c : ascii) (p : string) :
  run_start_time (self w) = Some t0 ->
  xunit_filename settings = PyStr (String c p) ->
  exists w',
    stopTestRun settings now w = (Returns tt, w')
    /\ base (self w') = super_stopTestRun (base (self w))
    /\ disk w' !! String c p
       = Some (default EmptyString (disk w !! String c p)
               +:+ "<h1>Result:</h1>" +:+ "<ul>" +:+ "<li>name: Dispatch</li>"
               +:+ ("<li>errors: " +:+ PyRepr.str_of_list (errors (base (self w))) +:+ "</li>")
               +:+ ("<li>failures: " +:+ PyRepr.str_of_list (failures (base (self w))) +:+ "</li>")
               +:+ ("<li>skips: " +:+ PyRepr.str_of_list (skipped (base (self w))) +:+ "</li>")
               +:+ ("<li>tests: " +:+ Py.str_of_nat (testsRun (base (self w))) +:+ "</li>")
               +:+ ("<li>time: " +:+ fstr (fsub now t0) +:+ "</li>")
               +:+ "</ul>" +:+ "</html>").
Proof.
  intros Hstart Hpath. destruct w as [[b cst ctt rst] d].
  cbn [self run_start_time] in Hstart. subst rst.
  callback_run. rewrite Hpath. callback_run_path.
  eexists. split; [reflexivity|]. split; [reflexivity|].
  cbn [disk self base].
  repeat (rewrite lookup_insert_eq; cbn [from_option id]).
  now rewrite !append_assoc.
Qed.

(** The string of a list is never the string of a number: it opens with a
    bracket. *)
Lemma str_of_list_not_a_count (l : list (TestCase * string)) (n : nat) :
  PyRepr.str_of_list l <> Py.str_of_nat n.
Proof.
  unfold PyRepr.str_of_list, Py.str_of_nat. rewrite append_cons.
  generalize (Nat.to_uint n) as u.
  intros u Heq. destruct u as [|u|u|u|u|u|u|u|u|u|u]; simpl in Heq; discriminate.
Qed.

(** C6 on the run of one failing and one passing test with a report: the
    result holds no error, one failure and two tests run, and the summary
    that [stopTestRun] appends prints the empty list of errors and the list
    of the failure with its traceback, not [0] and [1]; the count of tests
    and the time are there. *)
Theorem stopTestRun_summary_prints_lists :
  errors (base (self Sample.before_stop)) = []
  /\ List.length (failures (base (self Sample.before_stop))) = 1
  /\ skipped (base (self Sample.before_stop)) = []
  /\ testsRun (base (self Sample.before_stop)) = 2
  /\ disk (snd (stopTestRun Sample.settings_report 15 Sample.before_stop)) !! "report.html"
     = Some (Sample.report_before_stop
             +:+ "<h1>Result:</h1><ul><li>name: Dispatch</li><li>errors: []</li><li>failures: [(<polls.tests.PollTest testMethod=test_vote>, 'Traceback (most recent call last):\n  File tests.py, line 3, in test_vote\nAssertionError: 1 != 2')]</li><li>skips: []</li><li>tests: 2</li><li>time: 5.0</li></ul>"
             +:+ "</html>")
  /\ disk (snd (stopTestRun Sample.settings_report 15 Sample.before_stop)) !! "report.html"
     <> Some (Sample.report_before_stop +:+ Spec.summary 0 1 0 2 (fsub 15 10) +:+ "</html>").
Proof.
  repeat split; try (vm_compute; reflexivity).
  vm_compute. discriminate.
Qed.
Lemma append_file_lookup p s d :
  append_file p s d !! p = Some (default EmptyString (d !! p) +:+ s).
Proof. apply lookup_insert_eq. Qed.

Lemma append_file_lookup_ne p p' s d : p <> p' -> append_file p s d !! p' = d !! p'.
Proof. intros Hne. now apply lookup_insert_ne. Qed.

Lemma append_file_append_file p s1 s2 d :
  append_file p s2 (append_file p s1 d) = append_file p (s1 +:+ s2) d.
Proof.
  unfold append_file. rewrite lookup_insert_eq, insert_insert_eq. cbn [from_option id].
  now rewrite append_assoc.
Qed.

Section Blocks.
Context {T B : Type} `{PyFloat T} `{TextTestResult B}.
Variable settings : Settings.

Lemma fopen_append (p : string) (w : World T B) :
  fopen (PyStr p) ModeA w
  = (Returns p, {| self := self w; disk := append_file p EmptyString (disk w) |}).
Proof. unfold fopen, append_file. now rewrite append_nil_r. Qed.

Lemma fwrite_append (p s : string) (w : World T B) :
  fwrite p s w = (Returns tt, {| self := self w; disk := append_file p s (disk w) |}).
Proof. reflexivity. Qed.

(** Steps through a body of writes, one [bind] at a time. *)
Ltac write_step :=
  unfold bind at 1;
  first [ rewrite fopen_append | rewrite fwrite_append ];
  cbn [self disk]; rewrite ?append_file_append_file.

Lemma make_testcase_element_appends (test : TestCase) (w : World T B)
    (c : ascii) (p : string) (taken : T) :
  xunit_filename settings = PyStr (String c p) ->
  case_time_taken (self w) = Some taken ->
  _make_testcase_element settings test w
  = (Returns tt,
     {| self := self w;
        disk := append_file (String c p) (Report.element taken test) (disk w) |}).
Proof.
  intros Hpath Htaken. unfold _make_testcase_element. rewrite Hpath.
  cbn [truthy Py.truthy_str]. rewrite join_split.
  do 3 write_step.
  unfold bind at 1. unfold bind at 1. unfold read_attr at 1. cbn [self]. rewrite Htaken.
  rewrite fwrite_append. cbn [self disk]. rewrite append_file_append_file.
  do 4 write_step.
  unfold fclose, ret, Report.element.
  now rewrite append_nil_l, !append_assoc.
Qed.

Lemma add_tb_to_test_appends (test : TestCase) (err : exc_info) (w : World T B)
    (c : ascii) (p : string) :
  xunit_filename settings = PyStr (String c p) ->
  _add_tb_to_test settings test err w
  = (Returns tt,
     {| self := self w;
        disk := append_file (String c p)
                  (Report.traceback (base (self w)) test err) (disk w) |}).
Proof.
  intros Hpath. unfold _add_tb_to_test. rewrite Hpath.
  unfold bind at 1. unfold read_base at 1. cbn [truthy Py.truthy_str].
  do 6 write_step.
  unfold fclose, ret, Report.traceback.
  now rewrite append_nil_l, !append_assoc.
Qed.

Lemma take_case_time_started (now t0 : T) (w : World T B) :
  case_start_time (self w) = Some t0 ->
  take_case_time now w
  = (Returns tt,
     {| self := {| base := base (self w);
                   case_start_time := case_start_time (self w);
                   case_time_taken := Some (fsub now t0);
                   run_start_time := run_start_time (self w) |};
        disk := disk w |}).
Proof.
  intros Hstart. destruct w as [[b cst ctt rst] d].
  cbn [self case_start_time] in Hstart. subst cst. reflexivity.
Qed.

Lemma add_terminal_with_report (e : terminal) (now t0 : T) (w : World T B)
    (c : ascii) (p : string) :
  xunit_filename settings = PyStr (String c p) ->
  case_start_time (self w) = Some t0 ->
  add_terminal settings now e w
  = (Returns tt,
     {| self := after_terminal (self w) (fsub now t0) e;
        disk := append_file (String c p)
                  (Report.entry (base (self w)) (fsub now t0) e) (disk w) |}).
Proof.
  intros Hpath Hstart.
  destruct e; unfold add_terminal, addSuccess, addFailure, addError, addUnexpectedSuccess,
    addSkip, addExpectedFailure;
    unfold bind at 1; rewrite (take_case_time_started now t0 w Hstart);
    rewrite Hpath; cbn [truthy Py.truthy_str];
    unfold bind at 1; try (unfold bind at 1);
    rewrite (make_testcase_element_appends _ _ c p (fsub now t0) Hpath) by reflexivity;
    try rewrite (add_tb_to_test_appends _ _ _ c p Hpath);
    cbn [self disk base]; rewrite ?append_file_append_file;
    unfold Report.entry; cbn [err_of test_of]; rewrite ?append_nil_r; reflexivity.
Qed.

Lemma add_terminal_without_report (e : terminal) (now t0 : T) (w : World T B) :
  truthy (xunit_filename settings) = false ->
  case_start_time (self w) = Some t0 ->
  add_terminal settings now e w
  = (Returns tt, {| self := after_terminal (self w) (fsub now t0) e; disk := disk w |}).
Proof.
  intros Hpath Hstart.
  destruct e; unfold add_terminal, addSuccess, addFailure, addError, addUnexpectedSuccess,
    addSkip, addExpectedFailure;
    unfold bind at 1; rewrite (take_case_time_started now t0 w Hstart);
    rewrite Hpath; reflexivity.
Qed.

Lemma startTest_sets_start (now : T) (test : TestCase) (w : World T B) :
  startTest now test w
  = (Returns tt,
     {| self := {| base := super_startTest test (base (self w));
                   case_start_time := Some now;
                   case_time_taken := case_time_taken (self w);
                   run_start_time := run_start_time (self w) |};
        disk := disk w |}).
Proof. reflexivity. Qed.

Lemma startTestRun_with_report (now : T) (w : World T B) (c : ascii) (p : string) :
  xunit_filename settings = PyStr (String c p) ->
  startTestRun settings now w
  = (Returns tt,
     {| self := {| base := super_startTestRun (base (self w));
                   case_start_time := case_start_time (self w);
                   case_time_taken := case_time_taken (self w);
                   run_start_time := Some now |};
        disk := <[String c p := "<html>"]> (disk w) |}).
Proof.
  intros Hpath. unfold startTestRun. rewrite Hpath. cbn [truthy Py.truthy_str].
  unfold bind at 1. unfold bind at 1. unfold fopen at 1.
  unfold bind at 1. rewrite fwrite_append. cbn [self disk].
  unfold append_file. rewrite lookup_insert_eq, insert_insert_eq. cbn [from_option id].
  rewrite append_nil_l. reflexivity.
Qed.

Lemma startTestRun_without_report (now : T) (w : World T B) :
  truthy (xunit_filename settings) = false ->
  startTestRun settings now w
  = (Returns tt,
     {| self := {| base := super_startTestRun (base (self w));
                   case_start_time := case_start_time (self w);
                   case_time_taken := case_time_taken (self w);
                   run_start_time := Some now |};
        disk := disk w |}).
Proof. intros Hpath. unfold startTestRun. rewrite Hpath. reflexivity. Qed.

Lemma stopTestRun_with_report (now t0 : T) (w : World T B) (c : ascii) (p : string) :
  xunit_filename settings = PyStr (String c p) ->
  run_start_time (self w) = Some t0 ->
  stopTestRun settings now w
  = (Returns tt,
     {| self := {| base := super_stopTestRun (base (self w));
                   case_start_time := case_start_time (self w);
                   case_time_taken := case_time_taken (self w);
                   run_start_time := run_start_time (self w) |};
        disk := append_file (String c p)
                  (Report.closing (base (self w)) (fsub now t0)) (disk w) |}).
Proof.
  intros Hpath Hstart. destruct w as [[b cst ctt rst] d].
  cbn [self run_start_time] in Hstart. subst rst. cbn [self disk base run_start_time
    case_start_time case_time_taken].
  unfold stopTestRun.
  unfold bind at 1. unfold read_attr at 1. cbn [self run_start_time].
  rewrite Hpath. cbn [truthy Py.truthy_str].
  unfold bind at 1. do 4 write_step.
  do 4 (unfold bind at 1; unfold bind at 1; unfold read_base at 1; rewrite fwrite_append;
        cbn [self disk]; rewrite append_file_append_file).
  do 2 write_step. unfold fclose at 1 2. unfold bind at 1. unfold bind at 1. unfold ret at 1 2.
  unfold bind at 1. do 2 write_step.
  unfold fclose, ret, bind, super, update_self.
  cbn [self disk base case_start_time case_time_taken run_start_time].
  unfold Report.closing. repeat rewrite append_nil_l. now rewrite !append_assoc.
Qed.

Lemma stopTestRun_without_report (now t0 : T) (w : World T B) :
  truthy (xunit_filename settings) = false ->
  run_start_time (self w) = Some t0 ->
  stopTestRun settings now w
  = (Returns tt,
     {| self := {| base := super_stopTestRun (base (self w));
                   case_start_time := case_start_time (self w);
                   case_time_taken := case_time_taken (self w);
                   run_start_time := run_start_time (self w) |};
        disk := disk w |}).
Proof.
  intros Hpath Hstart. destruct w as [[b cst ctt rst] d].
  cbn [self run_start_time] in Hstart. subst rst.
  unfold stopTestRun, bind, read_attr. cbn [self run_start_time]. rewrite Hpath. reflexivity.
Qed.

Lemma stopTestRun_not_started (now : T) (w : World T B) :
  run_start_time (self w) = None ->
  stopTestRun settings now w = (Raises (AttributeError "run_start_time"), w).
Proof. intros Hnone. unfold stopTestRun, bind, read_attr. now rewrite Hnone. Qed.

Lemma add_terminal_not_started (e : terminal) (now : T) (w : World T B) :
  case_start_time (self w) = None ->
  add_terminal settings now e w = (Raises (AttributeError "case_start_time"), w).
Proof.
  intros Hnone.
  destruct e; unfold add_terminal, addSuccess, addFailure, addError, addUnexpectedSuccess,
    addSkip, addExpectedFailure, take_case_time, read_attr, bind;
    rewrite Hnone; reflexivity.
Qed.
End Blocks.

Section Runs.
Context {T B : Type} `{PyFloat T} `{TextTestResult B}.
Variable settings : Settings.

Lemma callbacks_app (cs1 cs2 : list (T * event)) (w : World T B) :
  callbacks settings (cs1 ++ cs2) w
  = match callbacks settings cs1 w with
    | (Returns _, w') => callbacks settings cs2 w'
    | (Raises e, w') => (Raises e, w')
    end.
Proof.
  revert w. induction cs1 as [|c cs1 IH]; intros w; [reflexivity|].
  cbn [callbacks app]. unfold bind.
  destruct (callback settings c w) as [[[]|e] w']; [apply IH | reflexivity].
Qed.

(** A relation between worlds that every callback of a kind [Q] keeps is
    kept by every sequence of such callbacks, wherever the sequence stops. *)
Lemma callbacks_related (Q : T * event -> Prop) (R : World T B -> World T B -> Prop) :
  (forall w, R w w) ->
  (forall w1 w2 w3, R w1 w2 -> R w2 w3 -> R w1 w3) ->
  (forall c w, Q c -> R w (snd (callback settings c w))) ->
  forall cs w, Forall Q cs -> R w (snd (callbacks settings cs w)).
Proof.
  intros Hrefl Htrans Hstep cs w Hcs. revert w.
  induction Hcs as [|c cs Hc Hcs IH]; intros w; [apply Hrefl|].
  cbn [callbacks]. unfold bind.
  pose proof (Hstep c w Hc) as Hone.
  destruct (callback settings c w) as [[[]|e] w']; cbn [snd] in *.
  - eapply Htrans; [exact Hone | apply IH].
  - exact Hone.
Qed.

(** Whatever the settings, a terminal callback on a started test returns,
    and the result object is the one [after_terminal] describes. *)
Lemma add_terminal_started (e : terminal) (now t0 : T) (w : World T B) :
  case_start_time (self w) = Some t0 ->
  exists d',
    add_terminal settings now e w
    = (Returns tt, {| self := after_terminal (self w) (fsub now t0) e; disk := d' |}).
Proof.
  intros Hstart. destruct (xunit_filename settings) as [|[|c p]] eqn:Hpath.
  - eexists. apply add_terminal_without_report; [now rewrite Hpath | exact Hstart].
  - eexists. apply add_terminal_without_report; [now rewrite Hpath | exact Hstart].
  - eexists. apply (add_terminal_with_report settings e now t0 w c p Hpath Hstart).
Qed.

(** What one callback does to the disk: nothing, an append to the report,
    or, at run start, a fresh report. *)
Lemma callback_disk_cases (c : T * event) (w : World T B) (a : ascii) (p : string) :
  xunit_filename settings = PyStr (String a p) ->
  disk (snd (callback settings c w)) = disk w
  \/ (exists s, disk (snd (callback settings c w)) = append_file (String a p) s (disk w))
  \/ (snd c = StartTestRun
      /\ disk (snd (callback settings c w)) = <[String a p := "<html>"]> (disk w)).
Proof.
  intros Hpath. destruct c as [now [| test | e |]]; cbn [callback snd].
  - right. right. split; [reflexivity|].
    now rewrite (startTestRun_with_report settings now w a p Hpath).
  - left. reflexivity.
  - destruct (case_start_time (self w)) as [t0|] eqn:Hstart.
    + right. left. eexists.
      now rewrite (add_terminal_with_report settings e now t0 w a p Hpath Hstart).
    + left. now rewrite (add_terminal_not_started settings e now w Hstart).
  - destruct (run_start_time (self w)) as [t0|] eqn:Hstart.
    + right. left. eexists.
      now rewrite (stopTestRun_with_report settings now t0 w a p Hpath Hstart).
    + left. now rewrite (stopTestRun_not_started settings now w Hstart).
Qed.

Lemma truthy_cases (v : pyval) :
  truthy v = false \/ exists a p, v = PyStr (String a p).
Proof. destruct v as [|[|a p]]; eauto. Qed.
End Runs.

(** ** More on the result sink *)

(** X1: whatever the callbacks and wherever they stop, a file other than the
    configured report is neither created nor changed. *)
Theorem callbacks_touch_only_the_report
    {T B : Type} `{PyFloat T} `{TextTestResult B}
    (settings : Settings) (cs : list (T * event)) (w : World T B) (other : string) :
  xunit_filename settings <> PyStr other ->
  disk (snd (callbacks settings cs w)) !! other = disk w !! other.
Proof.
  intros Hother.
  apply (callbacks_related settings (fun _ => True)
           (fun w w' => disk w' !! other = disk w !! other)).
  - reflexivity.
  - intros w1 w2 w3 H12 H23. congruence.
  - intros c w0 _.
    destruct (truthy_cases (xunit_filename settings)) as [Hno | (a & p & Hpath)].
    + now rewrite (callback_disk_unchanged settings c w0 Hno).
    + assert (String a p <> other) as Hne by congruence.
      destruct (callback_disk_cases settings c w0 a p Hpath) as [-> | [[s ->] | [_ ->]]].
      * reflexivity.
      * now apply append_file_lookup_ne.
      * now apply lookup_insert_ne.
  - apply Forall_forall. intros; exact I.
Qed.

Lemma callbacks_touch_only_the_report_witness :
  xunit_filename Sample.settings_report <> PyStr "notes.txt"
  /\ disk (snd (callbacks Sample.settings_report Sample.run_one_failure
                  (world0 true {[ "notes.txt" := "kept" ]}))) !! "notes.txt"
     = disk (world0 (T:=nat) true {[ "notes.txt" := "kept" ]}) !! "notes.txt".
Proof.
  split; [discriminate|].
  apply (callbacks_touch_only_the_report Sample.settings_report Sample.run_one_failure
           (world0 true {[ "notes.txt" := "kept" ]}) "notes.txt").
  discriminate.
Defined.

(** X2: between two run starts the report only grows: callbacks other than
    [startTestRun] leave what the report holds as a prefix of what it holds
    afterwards. *)
Theorem report_only_grows
    {T B : Type} `{PyFloat T} `{TextTestResult B}
    (settings : Settings) (cs : list (T * event)) (w : World T B) (path old : string) :
  xunit_filename settings = PyStr path ->
  Forall (fun c => snd c <> StartTestRun) cs ->
  disk w !! path = Some old ->
  exists s, disk (snd (callbacks settings cs w)) !! path = Some (old +:+ s).
Proof.
  intros Hpath Hcs Hold.
  refine (callbacks_related settings (fun c => snd c <> StartTestRun)
            (fun w w' => forall old, disk w !! path = Some old ->
                           exists s, disk w' !! path = Some (old +:+ s))
            _ _ _ cs w Hcs old Hold).
  - intros wa o Hl. exists EmptyString. now rewrite append_nil_r.
  - intros w1 w2 w3 H12 H23 o Hl.
    destruct (H12 o Hl) as [s1 H1]. destruct (H23 _ H1) as [s2 H2].
    exists (s1 +:+ s2). now rewrite <- append_assoc.
  - intros c wa Hc o Hl.
    destruct (truthy_cases (xunit_filename settings)) as [Hno | (a & p & Hpath')].
    + rewrite (callback_disk_unchanged settings c wa Hno).
      exists EmptyString. now rewrite append_nil_r.
    + assert (path = String a p) as -> by congruence.
      destruct (callback_disk_cases settings c wa a p Hpath') as [-> | [[s ->] | [Hrun _]]].
      * exists EmptyString. now rewrite append_nil_r.
      * exists s. now rewrite append_file_lookup, Hl.
      * contradiction.
Qed.

Lemma report_only_grows_witness :
  xunit_filename Sample.settings_report = PyStr "report.html"
  /\ Forall (fun c => snd c <> StartTestRun) (tl Sample.run_one_failure)
  /\ exists s,
       disk (snd (callbacks Sample.settings_report (tl Sample.run_one_failure)
                    (world0 true {[ "report.html" := "<html>" ]}))) !! "report.html"
       = Some ("<html>" +:+ s).
Proof.
  assert (Forall (fun c : nat * event => snd c <> StartTestRun) (tl Sample.run_one_failure))
    as Hcs by (repeat constructor; discriminate).
  split; [reflexivity|]. split; [exact Hcs|].
  apply (report_only_grows Sample.settings_report (tl Sample.run_one_failure)
           (world0 true {[ "report.html" := "<html>" ]}) "report.html" "<html>");
    [reflexivity | exact Hcs | reflexivity].
Defined.

Lemma append_file_insert p s old (d : gmap string string) :
  append_file p s (<[p := old]> d) = <[p := old +:+ s]> d.
Proof.
  unfold append_file. now rewrite lookup_insert_eq, insert_insert_eq.
Qed.

Section WholeRuns.
Context {T B : Type} `{PyFloat T} `{TextTestResult B}.
Variable settings : Settings.

(** The tests of a run, with a report that exists already. *)
Lemma tests_run_with_report (a : ascii) (p : string) (items : list (T * T * terminal)) :
  xunit_filename settings = PyStr (String a p) ->
  forall (w : World T B) (old : string) (d0 : gmap string string),
    disk w = <[String a p := old]> d0 ->
    exists w',
      callbacks settings (flat_map test_events items) w = (Returns tt, w')
      /\ base (self w') = base_after_tests (base (self w)) items
      /\ run_start_time (self w') = run_start_time (self w)
      /\ disk w' = <[String a p := old +:+ entries (base (self w)) items]> d0.
Proof.
  intros Hpath. induction items as [|[[t0 t1] e] rest IH]; intros w old d0 Hdisk.
  - exists w. cbn [flat_map callbacks entries base_after_tests].
    rewrite append_nil_r. repeat split; try reflexivity. exact Hdisk.
  - cbn [flat_map test_events app callbacks callback].
    unfold bind at 1. rewrite startTest_sets_start.
    unfold bind at 1.
    erewrite (add_terminal_with_report settings e t1 t0 _ a p Hpath); [|reflexivity].
    cbn [self disk base]. rewrite Hdisk, append_file_insert.
    match goal with
    | |- context [callbacks settings (flat_map test_events rest) ?w2] =>
        destruct (IH w2
                    (old +:+ Report.entry (super_startTest (test_of e) (base (self w)))
                                (fsub t1 t0) e)
                    d0 eq_refl) as (w' & Hrun & Hbase & Hrst & Hd)
    end.
    exists w'. rewrite Hrun. split; [reflexivity|].
    rewrite Hbase, Hrst, Hd. cbn [self base run_start_time after_terminal
      entries base_after_tests]. rewrite append_assoc. repeat split; reflexivity.
Qed.

(** The tests of a run, with no report. *)
Lemma tests_run_without_report (items : list (T * T * terminal)) :
  truthy (xunit_filename settings) = false ->
  forall w : World T B,
    exists w',
      callbacks settings (flat_map test_events items) w = (Returns tt, w')
      /\ base (self w') = base_after_tests (base (self w)) items
      /\ run_start_time (self w') = run_start_time (self w)
      /\ disk w' = disk w.
Proof.
  intros Hpath. induction items as [|[[t0 t1] e] rest IH]; intros w.
  - exists w. repeat split; reflexivity.
  - cbn [flat_map test_events app callbacks callback].
    unfold bind at 1. rewrite startTest_sets_start.
    unfold bind at 1.
    erewrite (add_terminal_without_report settings e t1 t0 _ Hpath); [|reflexivity].
    cbn [self disk base].
    match goal with
    | |- context [callbacks settings (flat_map test_events rest) ?w2] =>
        destruct (IH w2) as (w' & Hrun & Hbase & Hrst & Hd)
    end.
    exists w'. rewrite Hrun. split; [reflexivity|].
    rewrite Hbase, Hrst, Hd. repeat split; reflexivity.
Qed.
End WholeRuns.

(** A whole run with a report, in the model of the section [Sink], where
    files open and the inherited methods return: the run returns, and the
    report is the opening tag, the entries and the closing block. *)
Lemma engine_run_with_report
    {T B : Type} `{PyFloat T} `{TextTestResult B}
    (settings : Settings) (a : ascii) (p : string)
    (t_begin t_end : T) (items : list (T * T * terminal)) (w : World T B) :
  xunit_filename settings = PyStr (String a p) ->
  exists w',
    callbacks settings (engine_run t_begin items t_end) w = (Returns tt, w')
    /\ disk w'
       = <[String a p :=
             "<html>"
             +:+ entries (super_startTestRun (base (self w))) items
             +:+ Report.closing
                   (base_after_tests (super_startTestRun (base (self w))) items)
                   (fsub t_end t_begin)]> (disk w).
Proof.
  intros Hpath. unfold engine_run. cbn [callbacks callback].
  unfold bind at 1. rewrite (startTestRun_with_report settings t_begin w a p Hpath).
  rewrite callbacks_app.
  match goal with
  | |- context [callbacks settings (flat_map test_events items) ?w0] =>
      destruct (tests_run_with_report settings a p items Hpath w0 "<html>" (disk w) eq_refl)
        as (w1 & Hrun & Hbase & Hrst & Hd)
  end.
  rewrite Hrun. cbn [callbacks callback]. unfold bind at 1.
  cbn [self base run_start_time] in Hbase, Hrst.
  rewrite (stopTestRun_with_report settings t_end t_begin w1 a p Hpath Hrst).
  eexists. split; [reflexivity|].
  cbn [disk]. rewrite Hd, append_file_insert, Hbase. now rewrite append_assoc.
Qed.

(** A whole run in the model of the section [Sink], with or without a
    report: it returns, and the inherited part is the one the inherited
    methods give, applied in the order of the run. *)
Lemma engine_run_in_order
    {T B : Type} `{PyFloat T} `{TextTestResult B}
    (settings : Settings) (t_begin t_end : T) (items : list (T * T * terminal))
    (w : World T B) :
  exists w',
    callbacks settings (engine_run t_begin items t_end) w = (Returns tt, w')
    /\ base (self w')
       = super_stopTestRun (base_after_tests (super_startTestRun (base (self w))) items).
Proof.
  unfold engine_run. cbn [callbacks callback]. unfold bind at 1.
  destruct (truthy_cases (xunit_filename settings)) as [Hno | (a & p & Hpath)].
  - rewrite (startTestRun_without_report settings t_begin w Hno), callbacks_app.
    match goal with
    | |- context [callbacks settings (flat_map test_events items) ?w0] =>
        destruct (tests_run_without_report settings items Hno w0)
          as (w1 & Hrun & Hbase & Hrst & _)
    end.
    rewrite Hrun. cbn [callbacks callback]. unfold bind at 1.
    cbn [self base run_start_time] in Hbase, Hrst.
    rewrite (stopTestRun_without_report settings t_end t_begin w1 Hno Hrst).
    eexists. split; [reflexivity|]. cbn [self base]. now rewrite Hbase.
  - rewrite (startTestRun_with_report settings t_begin w a p Hpath), callbacks_app.
    match goal with
    | |- context [callbacks settings (flat_map test_events items) ?w0] =>
        destruct (tests_run_with_report settings a p items Hpath w0 "<html>" (disk w) eq_refl)
          as (w1 & Hrun & Hbase & Hrst & _)
    end.
    rewrite Hrun. cbn [callbacks callback]. unfold bind at 1.
    cbn [self base run_start_time] in Hbase, Hrst.
    rewrite (stopTestRun_with_report settings t_end t_begin w1 a p Hpath Hrst).
    eexists. split; [reflexivity|]. cbn [self base]. now rewrite Hbase.
Qed.

Lemma callback_outcome
    {T B : Type} `{PyFloat T} `{TextTestResult B}
    (settings : Settings) (c : T * event) (w : World T B) :
  fst (callback settings c w) = Returns tt
  \/ fst (callback settings c w) = Raises (AttributeError "case_start_time")
  \/ fst (callback settings c w) = Raises (AttributeError "run_start_time").
Proof.
  destruct c as [now [| test | e |]]; cbn [callback].
  - left. destruct (truthy_cases (xunit_filename settings)) as [Hno | (a & p & Hpath)].
    + now rewrite (startTestRun_without_report settings now w Hno).
    + now rewrite (startTestRun_with_report settings now w a p Hpath).
  - left. reflexivity.
  - destruct (case_start_time (self w)) as [t0|] eqn:Hstart.
    + left. destruct (add_terminal_started settings e now t0 w Hstart) as [d' ->]. reflexivity.
    + right. left. now rewrite (add_terminal_not_started settings e now w Hstart).
  - destruct (run_start_time (self w)) as [t0|] eqn:Hstart.
    + left. destruct (truthy_cases (xunit_filename settings)) as [Hno | (a & p & Hpath)].
      * now rewrite (stopTestRun_without_report settings now t0 w Hno Hstart).
      * now rewrite (stopTestRun_with_report settings now t0 w a p Hpath Hstart).
    + right. right. now rewrite (stopTestRun_not_started settings now w Hstart).
Qed.

(** How a sequence of callbacks ends in the model of the section [Sink]. *)
Lemma callbacks_outcome
    {T B : Type} `{PyFloat T} `{TextTestResult B}
    (settings : Settings) (cs : list (T * event)) (w : World T B) :
  fst (callbacks settings cs w) = Returns tt
  \/ fst (callbacks settings cs w) = Raises (AttributeError "case_start_time")
  \/ fst (callbacks settings cs w) = Raises (AttributeError "run_start_time").
Proof.
  revert w. induction cs as [|c cs IH]; intros w; [now left|].
  cbn [callbacks]. unfold bind.
  pose proof (callback_outcome settings c w) as Hc.
  destruct (callback settings c w) as [[[]|e] w']; cbn [fst] in *.
  - apply IH.
  - exact Hc.
Qed.

Lemma callback_keeps_run_start_time
    {T B : Type} `{PyFloat T} `{TextTestResult B}
    (settings : Settings) (c : T * event) (w : World T B) :
  snd c <> StartTestRun ->
  run_start_time (self (snd (callback settings c w))) = run_start_time (self w).
Proof.
  intros Hc. destruct c as [now [| test | e |]]; cbn [callback snd] in *.
  - congruence.
  - reflexivity.
  - destruct (case_start_time (self w)) as [t0|] eqn:Hstart.
    + destruct (add_terminal_started settings e now t0 w Hstart) as [d' ->]. reflexivity.
    + now rewrite (add_terminal_not_started settings e now w Hstart).
  - destruct (run_start_time (self w)) as [t0|] eqn:Hstart.
    + destruct (truthy_cases (xunit_filename settings)) as [Hno | (a & p & Hpath)].
      * now rewrite (stopTestRun_without_report settings now t0 w Hno Hstart).
      * now rewrite (stopTestRun_with_report settings now t0 w a p Hpath Hstart).
    + now rewrite (stopTestRun_not_started settings now w Hstart).
Qed.

(** X6: [run_start_time] is assigned by [startTestRun] alone, so a run stop
    that no run start came before never returns: on a result without the
    attribute, callbacks other than [startTestRun] followed by
    [stopTestRun] end in an exception, and the closing block is not
    written by that [stopTestRun]. *)
Theorem stopTestRun_requires_startTestRun
    {T B : Type} `{PyFloat T} `{TextTestResult B}
    (settings : Settings) (cs : list (T * event)) (now : T) (w : World T B) :
  run_start_time (self w) = None ->
  Forall (fun c => snd c <> StartTestRun) cs ->
  exists e,
    fst (callbacks settings (cs ++ [(now, StopTestRun)]) w) = Raises e
    /\ snd (callbacks settings (cs ++ [(now, StopTestRun)]) w) = snd (callbacks settings cs w).
Proof.
  intros Hnone Hcs. rewrite callbacks_app.
  assert (run_start_time (self (snd (callbacks settings cs w))) = None) as Hkeep.
  { refine (callbacks_related settings (fun c => snd c <> StartTestRun)
              (fun w w' => run_start_time (self w) = None -> run_start_time (self w') = None)
              _ _ _ cs w Hcs Hnone).
    - auto.
    - auto.
    - intros c w0 Hc Hw0. now rewrite (callback_keeps_run_start_time settings c w0 Hc). }
  destruct (callbacks settings cs w) as [[[]|e] w'] eqn:Hrun; cbn [snd] in *.
  - cbn [callbacks callback]. unfold bind.
    rewrite (stopTestRun_not_started settings now w' Hkeep). eauto.
  - eauto.
Qed.

Lemma stopTestRun_requires_startTestRun_witness :
  run_start_time (self (world0 (T:=nat) true ∅)) = None
  /\ Forall (fun c : nat * event => snd c <> StartTestRun) [(10, StartTest Sample.t_vote)]
  /\ exists e,
       fst (callbacks Sample.settings_report
              ([(10, StartTest Sample.t_vote)] ++ [(15, StopTestRun)]) (world0 true ∅))
       = Raises e.
Proof.
  assert (Forall (fun c : nat * event => snd c <> StartTestRun) [(10, StartTest Sample.t_vote)])
    as Hcs by (repeat constructor; discriminate).
  split; [reflexivity|]. split; [exact Hcs|].
  destruct (stopTestRun_requires_startTestRun Sample.settings_report
              [(10, StartTest Sample.t_vote)] 15 (world0 true ∅) eq_refl Hcs) as (e & He & _).
  exists e. exact He.
Defined.

(** [startTest] and then a terminal callback, in the model of the section
    [Sink]. *)
Lemma startTest_then_terminal
    {T B : Type} `{PyFloat T} `{TextTestResult B}
    (settings : Settings) (t0 t1 : T) (test : TestCase) (e : terminal) (w : World T B) :
  exists w',
    callbacks settings [(t0, StartTest test); (t1, Terminal e)] w = (Returns tt, w')
    /\ case_time_taken (self w') = Some (fsub t1 t0)
    /\ base (self w') = super_terminal e (super_startTest test (base (self w))).
Proof.
  cbn [callbacks callback]. unfold bind at 1.
  rewrite startTest_sets_start. unfold bind at 1.
  match goal with
  | |- context [add_terminal settings t1 e ?w1] =>
      destruct (add_terminal_started settings e t1 t0 w1 eq_refl) as [d' ->]
  end.
  eexists. split; [reflexivity|]. split; reflexivity.
Qed.





(** X10: the report does not tell the outcomes apart: callbacks about the
    same test with the same exception triple, or with none, write the same
    entry, so a success, a skip and an unexpected success read alike and the
    reason of a skip is not written. *)
Theorem report_entry_ignores_outcome_kind
    {T B : Type} `{PyFloat T} `{TextTestResult B}
    (settings : Settings) (e1 e2 : terminal) (now t0 : T) (w : World T B) :
  case_start_time (self w) = Some t0 ->
  test_of e1 = test_of e2 ->
  err_of e1 = err_of e2 ->
  disk (snd (add_terminal settings now e1 w)) = disk (snd (add_terminal settings now e2 w)).
Proof.
  intros Hstart Htest Herr.
  destruct (truthy_cases (xunit_filename settings)) as [Hno | (a & p & Hpath)].
  - now rewrite !(add_terminal_without_report settings _ now t0 w Hno Hstart).
  - rewrite !(add_terminal_with_report settings _ now t0 w a p Hpath Hstart).
    cbn [snd disk]. unfold Report.entry. now rewrite Htest, Herr.
Qed.

Lemma report_entry_ignores_outcome_kind_witness :
  case_start_time (self (Sample.started Sample.settings_report)) = Some 10
  /\ disk (snd (add_terminal Sample.settings_report 12 (Success Sample.t_vote)
                  (Sample.started Sample.settings_report)))
     = disk (snd (add_terminal Sample.settings_report 12 (Skip Sample.t_vote "not today")
                    (Sample.started Sample.settings_report))).
Proof.
  split; [reflexivity|].
  apply (report_entry_ignores_outcome_kind Sample.settings_report
           (Success Sample.t_vote) (Skip Sample.t_vote "not today") 12 10
           (Sample.started Sample.settings_report)); reflexivity.
Defined.

(** ** More on the suite selector *)

(** X11: when no label is given, the labels are the leaves, in order and
    one for each, of the installed applications that are not under
    [django.contrib.] and, unless the override is set, not in the exclusion
    list. So an application under [django.contrib.] is never run, override
    or not, and no label has a dot. *)
Theorem run_tests_derived_labels
    {Extra Kwargs R : Type} (super_run_tests : list string -> Extra -> Kwargs -> R)
    (settings : Settings) (extra_tests : Extra) (kwargs : Kwargs) :
  exists kept : list string,
    kept = List.filter
             (fun x =>
                negb (Py.contains x
                        (if getattr (TEST_ALL_APPS settings) false then []
                         else getattr (EXCLUDED_TEST_APPS settings) []))
                && negb (is_contrib x))
             (INSTALLED_APPS settings)
    /\ run_tests super_run_tests settings [] extra_tests kwargs
       = super_run_tests (map leaf kept) extra_tests kwargs
    /\ (forall x, In x kept <->
          In x (INSTALLED_APPS settings)
          /\ ~ (exists r, x = "django.contrib." +:+ r)
          /\ (getattr (TEST_ALL_APPS settings) false = false ->
              ~ In x (getattr (EXCLUDED_TEST_APPS settings) [])))
    /\ List.length (map leaf kept) = List.length kept
    /\ (forall l, In l (map leaf kept) -> ~ In "."%char (list_ascii_of_string l)).
Proof.
  eexists. split; [reflexivity|]. split; [reflexivity|]. split; [|split].
  - intros x. rewrite kept_iff. unfold is_contrib. rewrite <- startswith_iff.
    destruct (getattr (TEST_ALL_APPS settings) false);
      destruct (Py.startswith x "django.contrib."); cbn; intuition congruence.
  - apply length_map.
  - intros l Hl. apply in_map_iff in Hl. destruct Hl as (x & <- & _). apply leaf_no_dot.
Qed.

(** X12: a missing [EXCLUDED_TEST_APPS], like an empty one, excludes
    nothing: with no label, the labels are the leaves of all installed
    applications that are not under [django.contrib.], override or not. *)
Theorem run_tests_without_exclusion_list
    {Extra Kwargs R : Type} (super_run_tests : list string -> Extra -> Kwargs -> R)
    (settings : Settings) (extra_tests : Extra) (kwargs : Kwargs) :
  EXCLUDED_TEST_APPS settings = None \/ EXCLUDED_TEST_APPS settings = Some [] ->
  run_tests super_run_tests settings [] extra_tests kwargs
  = super_run_tests
      (map leaf (List.filter (fun x => negb (is_contrib x)) (INSTALLED_APPS settings)))
      extra_tests kwargs.
Proof.
  intros Hnone. unfold run_tests. cbn [Py.truthy_list negb].
  assert (getattr (EXCLUDED_TEST_APPS settings) [] = []) as -> by (destruct Hnone as [-> | ->]; reflexivity).
  now destruct (getattr (TEST_ALL_APPS settings) false).
Qed.

Lemma run_tests_without_exclusion_list_witness :
  (EXCLUDED_TEST_APPS Sample.settings_report = None
   \/ EXCLUDED_TEST_APPS Sample.settings_report = Some [])
  /\ run_tests Sample.engine Sample.settings_report [] tt tt = ["polls"; "blog"; "cart"].
Proof.
  split; [left; reflexivity|].
  rewrite (run_tests_without_exclusion_list Sample.engine Sample.settings_report tt tt
             (or_introl eq_refl)).
  reflexivity.
Defined.

(** ** More on the report path *)

(** X13: a report is configured exactly when one of the two settings holds
    a non-empty string, and the path is then such a string, one of the two. *)
Theorem report_configured_iff (settings : Settings) :
  (truthy (xunit_filename settings) = true
   <-> (exists a p, HOTRUNNER_XUNIT_FILENAME settings = Some (PyStr (String a p)))
       \/ (exists a p, JUXD_FILENAME settings = Some (PyStr (String a p))))
  /\ (truthy (xunit_filename settings) = true ->
      exists a p,
        xunit_filename settings = PyStr (String a p)
        /\ (HOTRUNNER_XUNIT_FILENAME settings = Some (PyStr (String a p))
            \/ JUXD_FILENAME settings = Some (PyStr (String a p)))).
Proof.
  unfold xunit_filename, py_or.
  destruct (HOTRUNNER_XUNIT_FILENAME settings) as [[|[|a p]]|];
    destruct (JUXD_FILENAME settings) as [[|[|a' p']]|]; cbn;
    (split; [split; [intros Ht; try discriminate; eauto
                    | intros [(x & y & Hx) | (x & y & Hx)]; congruence]
            | intros Ht; try discriminate; eauto 6]).
Qed.

(** ** More on test descriptions *)

(** X14: [getDescription] fails in one case only: the branch that parses
    [str(test)], with fewer than two tokens. With descriptions on and a
    non-empty short description it returns whatever [str(test)] is. *)
Theorem getDescription_raises_iff
    {T B : Type} `{TextTestResult B}
    (r : HotRunnerTestResult T B) (test : TestCase) :
  (exists e, getDescription r test = Raises e)
  <-> descriptions (base r) && truthy (shortDescription test) = false
      /\ List.length (Py.findall_words (test_str test)) < 2.
Proof.
  unfold getDescription.
  destruct (Py.findall_words (test_str test)) as [|name [|app rest]] eqn:Htokens.
  - rewrite (getitem_1_short []) by (cbn; lia). split.
    + intros [e He]. split; [|cbn; lia].
      destruct (shortDescription test) as [|d]; [apply andb_false_r|].
      destruct (descriptions (base r) && truthy (PyStr d)); [discriminate | reflexivity].
    + intros [Hb _]. exists IndexError.
      destruct (shortDescription test) as [|d]; [reflexivity | now rewrite Hb].
  - rewrite (getitem_1_short [name]) by (cbn; lia). split.
    + intros [e He]. split; [|cbn; lia].
      destruct (shortDescription test) as [|d]; [apply andb_false_r|].
      destruct (descriptions (base r) && truthy (PyStr d)); [discriminate | reflexivity].
    + intros [Hb _]. exists IndexError.
      destruct (shortDescription test) as [|d]; [reflexivity | now rewrite Hb].
  - rewrite getitem_0, getitem_1.
    rewrite (getitem_minus_1 (name :: app :: rest) app) by discriminate.
    split.
    + intros [e He]. exfalso.
      destruct (shortDescription test) as [|d]; [discriminate|].
      destruct (descriptions (base r) && truthy (PyStr d)); discriminate.
    + intros [_ Hlen]. cbn in Hlen. lia.
Qed.

(** ** The tokens of [re.findall('[\w_]+', s)] *)

Lemma findall_words_from_tokens (s : string) (cur : list ascii) :
  Forall (fun c => Py.is_word c = true) cur ->
  Forall is_token (Py.findall_words_from cur s).
Proof.
  assert (forall cur' : list ascii,
             cur' <> [] -> Forall (fun c => Py.is_word c = true) cur' ->
             is_token (string_of_list_ascii (rev cur'))) as Htok.
  { intros cur' Hne Hw. split.
    - intros Heq. apply (f_equal list_ascii_of_string) in Heq.
      rewrite list_ascii_of_string_of_list_ascii in Heq. cbn in Heq.
      apply (f_equal (@rev ascii)) in Heq. rewrite rev_involutive in Heq. now subst.
    - rewrite list_ascii_of_string_of_list_ascii. now apply Forall_rev. }
  revert cur. induction s as [|c s IH]; intros cur Hcur; cbn [Py.findall_words_from].
  - destruct cur as [|x cur]; constructor; [|constructor]. now apply Htok.
  - destruct (Py.is_word c) eqn:Hc.
    + apply IH. now constructor.
    + destruct cur as [|x cur]; [now apply IH|].
      constructor; [now apply Htok | now apply IH].
Qed.

(** X15: every token that [getDescription] parses out of [str(test)] is a
    non-empty run of letters, digits and underscores. *)
Theorem findall_words_tokens (s : string) :
  Forall (fun tok => tok <> EmptyString
                     /\ Forall (fun c => Py.is_word c = true) (list_ascii_of_string tok))
    (Py.findall_words s).
Proof. apply (findall_words_from_tokens s []). constructor. Qed.

Lemma findall_words_from_word (w : string) (cur : list ascii) (s : string) :
  Forall (fun c => Py.is_word c = true) (list_ascii_of_string w) ->
  Py.findall_words_from cur (w +:+ s)
  = Py.findall_words_from (rev (list_ascii_of_string w) ++ cur) s.
Proof.
  revert cur. induction w as [|c w IH]; intros cur Hw; [reflexivity|].
  cbn [list_ascii_of_string] in Hw. inversion Hw as [|? ? Hc Hw']; subst.
  rewrite append_cons. cbn [Py.findall_words_from]. rewrite Hc, IH by assumption.
  cbn [list_ascii_of_string rev]. now rewrite <- app_assoc.
Qed.

Lemma findall_words_from_break (w : string) (c : ascii) (s : string) :
  is_token w -> Py.is_word c = false ->
  Py.findall_words_from [] (w +:+ String c s) = w :: Py.findall_words_from [] s.
Proof.
  intros [Hne Hw] Hc. rewrite findall_words_from_word by assumption.
  cbn [Py.findall_words_from]. rewrite Hc, app_nil_r.
  destruct (rev (list_ascii_of_string w)) as [|x l] eqn:Hrev.
  - exfalso. apply Hne. apply (f_equal (@rev ascii)) in Hrev.
    rewrite rev_involutive in Hrev. cbn in Hrev.
    rewrite <- (string_of_list_ascii_of_string w), Hrev. reflexivity.
  - rewrite <- Hrev, rev_involutive, string_of_list_ascii_of_string. reflexivity.
Qed.

Lemma findall_words_dotted (parts : list string) (c : ascii) (s : string) :
  parts <> [] -> Forall is_token parts -> Py.is_word c = false ->
  Py.findall_words_from [] (Py.join "." parts +:+ String c s)
  = parts ++ Py.findall_words_from [] s.
Proof.
  intros Hne Hparts Hc. induction Hparts as [|x parts Hx Hparts IH]; [congruence|].
  destruct parts as [|y parts].
  - cbn [Py.join app]. now apply findall_words_from_break.
  - change (Py.join "." (x :: y :: parts)) with (x +:+ "." +:+ Py.join "." (y :: parts)).
    rewrite !append_assoc.
    change ("." +:+ Py.join "." (y :: parts) +:+ String c s)
      with (String "."%char (Py.join "." (y :: parts) +:+ String c s)).
    rewrite findall_words_from_break by (assumption || reflexivity).
    rewrite IH by discriminate. reflexivity.
Qed.

(** X16: for a test that prints as [unittest] prints it by default, the
    method name, then the dotted path of the class in parentheses, the
    parsed description is the method name, then in parentheses the first
    component of the path, the class name and the method name again: the
    components in between are dropped. *)
Theorem getDescription_of_default_str
    {T B : Type} `{TextTestResult B}
    (r : HotRunnerTestResult T B) (test : TestCase)
    (method first : string) (more : list string) :
  descriptions (base r) && truthy (shortDescription test) = false ->
  test_str test = method +:+ " (" +:+ Py.join "." (first :: more) +:+ ")" ->
  is_token method -> Forall is_token (first :: more) ->
  getDescription r test
  = Returns (method +:+ " (" +:+ first +:+ "." +:+ List.last more first
             +:+ "." +:+ method +:+ ")").
Proof.
  intros Hbranch Hstr Hmethod Hparts.
  assert (Py.findall_words (test_str test) = method :: first :: more) as Htokens.
  { rewrite Hstr. unfold Py.findall_words.
    change (method +:+ " (" +:+ Py.join "." (first :: more) +:+ ")")
      with (method +:+ String " "%char (String "("%char (Py.join "." (first :: more) +:+ ")"))).
    rewrite findall_words_from_break by (assumption || reflexivity).
    cbn [Py.findall_words_from]. change (Py.is_word "(") with false. cbv iota.
    change ")" with (String ")"%char EmptyString).
    rewrite findall_words_dotted by (assumption || discriminate || reflexivity).
    cbn [Py.findall_words_from]. now rewrite app_nil_r. }
  unfold getDescription.
  rewrite Htokens, getitem_0, getitem_1.
  rewrite (getitem_minus_1 (method :: first :: more) first) by discriminate.
  change (List.last (method :: first :: more) first) with (List.last (first :: more) first).
  assert (List.last (first :: more) first = List.last more first) as ->
    by (destruct more; reflexivity).
  destruct (shortDescription test) as [|d]; [reflexivity|].
  now rewrite Hbranch.
Qed.

Lemma getDescription_of_default_str_witness :
  getDescription (fresh (T:=nat) (u_init true)) Sample.t_vote
  = Returns "test_vote (polls.PollTest.test_vote)".
Proof.
  assert (forall s, Forall (fun c => Py.is_word c = true) (list_ascii_of_string s) ->
                    s <> EmptyString -> is_token s) as Htok by (intros; now split).
  apply (getDescription_of_default_str (fresh (T:=nat) (u_init true)) Sample.t_vote
           "test_vote" "polls" ["tests"; "PollTest"]).
  - reflexivity.
  - reflexivity.
  - apply Htok; [repeat constructor | discriminate].
  - repeat (constructor; [apply Htok; [repeat constructor | discriminate]|]).
    constructor.
Defined.

Lemma split_without_sep (sep : ascii) (s : string) :
  ~ In sep (list_ascii_of_string s) -> Py.split sep s = [s].
Proof.
  induction s as [|c s IH]; intros Hno; [reflexivity|].
  cbn [list_ascii_of_string] in Hno. cbn [Py.split].
  destruct (Ascii.eqb c sep) eqn:E.
  - apply Ascii.eqb_eq in E. subst. exfalso. apply Hno. now left.
  - rewrite IH; [reflexivity|]. intros Hin. apply Hno. now right.
Qed.

(** X17: the label of an application, [x.split('.')[-1]], is its last
    dotted component: it has no dot, the name is the label alone or a
    parent, a dot and the label, and a name without a dot is its own
    label. *)
Theorem leaf_is_last_component (x : string) :
  ~ In "."%char (list_ascii_of_string (leaf x))
  /\ (x = leaf x \/ exists parent, x = parent +:+ "." +:+ leaf x)
  /\ (~ In "."%char (list_ascii_of_string x) -> leaf x = x).
Proof.
  split; [apply leaf_no_dot|]. split; [apply leaf_suffix|].
  intros Hno. unfold leaf. now rewrite split_without_sep.
Qed.

(** ** Terminal callbacks and a report that may not open *)

Section SinkIOFacts.
Context {T B : Type} `{PyFloat T} `{TextTestResult B}.
Variable can_open : string -> bool.
Variable settings : Settings.



End SinkIOFacts.




(** ** Runs that complete *)

(** X3: when a whole run with a report completes, every callback having
    returned, the report is the opening tag, one entry for each test in the
    order of the run, and the closing block with the summary; what the file
    held before the run is gone. *)
Theorem completed_run_report_content
    {T B : Type} `{PyFloat T} `{TextTestResult B}
    (settings : Settings) (a : ascii) (p : string)
    (t_begin t_end : T) (items : list (T * T * terminal)) (w w' : World T B) :
  xunit_filename settings = PyStr (String a p) ->
  callbacks settings (engine_run t_begin items t_end) w = (Returns tt, w') ->
  disk w'
  = <[String a p :=
        "<html>"
        +:+ entries (super_startTestRun (base (self w))) items
        +:+ Report.closing
              (base_after_tests (super_startTestRun (base (self w))) items)
              (fsub t_end t_begin)]> (disk w).
Proof.
  intros Hpath Hrun.
  destruct (engine_run_with_report settings a p t_begin t_end items w Hpath)
    as (w1 & Hrun1 & Hdisk).
  rewrite Hrun in Hrun1. injection Hrun1 as <-. exact Hdisk.
Qed.

Lemma completed_run_report_content_witness :
  let run := engine_run 10 [(10, 12, Failure Sample.t_vote Sample.assertion);
                            (12, 13, Success Sample.t_index)] 15 in
  let w := world0 true {[ "report.html" := "stale" ]} in
  xunit_filename Sample.settings_report = PyStr "report.html"
  /\ callbacks Sample.settings_report run w
     = (Returns tt, snd (callbacks Sample.settings_report run w))
  /\ exists body,
       disk (snd (callbacks Sample.settings_report run w)) !! "report.html"
       = Some ("<html>" +:+ body).
Proof.
  intros run w.
  assert (callbacks Sample.settings_report run w
          = (Returns tt, snd (callbacks Sample.settings_report run w))) as Hrun.
  { destruct (engine_run_with_report Sample.settings_report "r" "eport.html" 10 15
                [(10, 12, Failure Sample.t_vote Sample.assertion);
                 (12, 13, Success Sample.t_index)] w eq_refl) as (w' & Hw' & _).
    unfold run. rewrite Hw'. reflexivity. }
  split; [reflexivity|]. split; [exact Hrun|].
  eexists.
  rewrite (completed_run_report_content Sample.settings_report "r" "eport.html" 10 15
             [(10, 12, Failure Sample.t_vote Sample.assertion);
              (12, 13, Success Sample.t_index)] w _ eq_refl Hrun).
  apply lookup_insert_eq.
Defined.

(** X4: when a whole run completes, with or without a report, the inherited
    methods have been reached once for each callback, in the order of the
    run: run start, then for each test its start and its terminal method,
    then run stop. *)
Theorem completed_run_delegates_in_order
    {T B : Type} `{PyFloat T} `{TextTestResult B}
    (settings : Settings) (t_begin t_end : T) (items : list (T * T * terminal))
    (w w' : World T B) :
  callbacks settings (engine_run t_begin items t_end) w = (Returns tt, w') ->
  base (self w')
  = super_stopTestRun (base_after_tests (super_startTestRun (base (self w))) items).
Proof.
  intros Hrun.
  destruct (engine_run_in_order settings t_begin t_end items w) as (w1 & Hrun1 & Hbase).
  rewrite Hrun in Hrun1. injection Hrun1 as <-. exact Hbase.
Qed.

Lemma completed_run_delegates_in_order_witness :
  let run := engine_run 10 [(10, 12, Failure Sample.t_vote Sample.assertion);
                            (12, 13, Success Sample.t_index)] 15 in
  let w := world0 true ∅ in
  callbacks Sample.settings_excluding run w
  = (Returns tt, snd (callbacks Sample.settings_excluding run w))
  /\ u_log (base (self (snd (callbacks Sample.settings_excluding run w))))
     = [StartTestRun;
        StartTest Sample.t_vote; Terminal (Failure Sample.t_vote Sample.assertion);
        StartTest Sample.t_index; Terminal (Success Sample.t_index);
        StopTestRun].
Proof.
  intros run w.
  assert (callbacks Sample.settings_excluding run w
          = (Returns tt, snd (callbacks Sample.settings_excluding run w))) as Hrun.
  { destruct (engine_run_in_order Sample.settings_excluding 10 15
                [(10, 12, Failure Sample.t_vote Sample.assertion);
                 (12, 13, Success Sample.t_index)] w) as (w' & Hw' & _).
    unfold run. rewrite Hw'. reflexivity. }
  split; [exact Hrun|].
  rewrite (completed_run_delegates_in_order Sample.settings_excluding 10 15
             [(10, 12, Failure Sample.t_vote Sample.assertion);
              (12, 13, Success Sample.t_index)] w _ Hrun).
  reflexivity.
Defined.

(** X5: no callback gives [open] a [None] path: every [open] is behind the
    test of [xunit_filename], so whatever the settings, the callbacks and
    the state, no sequence of callbacks ends in the [TypeError] of
    [open(None, ...)]. *)
Theorem open_never_gets_none
    {T B : Type} `{PyFloat T} `{TextTestResult B}
    (settings : Settings) (cs : list (T * event)) (w : World T B) :
  fst (callbacks settings cs w) <> Raises TypeError.
Proof.
  destruct (callbacks_outcome settings cs w) as [-> | [-> | ->]]; discriminate.
Qed.

(** X7: when [startTest] and then a terminal callback have returned, the
    time taken that is recorded is the clock reading of the terminal
    callback minus the reading of that [startTest], whatever was recorded
    before, and both inherited methods have been reached. *)
Theorem completed_test_elapsed_time
    {T B : Type} `{PyFloat T} `{TextTestResult B}
    (settings : Settings) (t0 t1 : T) (test : TestCase) (e : terminal) (w w' : World T B) :
  callbacks settings [(t0, StartTest test); (t1, Terminal e)] w = (Returns tt, w') ->
  case_time_taken (self w') = Some (fsub t1 t0)
  /\ base (self w') = super_terminal e (super_startTest test (base (self w))).
Proof.
  intros Hrun.
  destruct (startTest_then_terminal settings t0 t1 test e w) as (w1 & Hrun1 & Htaken & Hbase).
  rewrite Hrun in Hrun1. injection Hrun1 as <-. split; assumption.
Qed.

Lemma completed_test_elapsed_time_witness :
  let cs := [(10, StartTest Sample.t_vote); (17, Terminal (Skip Sample.t_vote "later"))] in
  let w := Sample.started Sample.settings_excluding in
  callbacks Sample.settings_excluding cs w
  = (Returns tt, snd (callbacks Sample.settings_excluding cs w))
  /\ case_time_taken (self (snd (callbacks Sample.settings_excluding cs w))) = Some 7.
Proof.
  intros cs w.
  assert (callbacks Sample.settings_excluding cs w
          = (Returns tt, snd (callbacks Sample.settings_excluding cs w))) as Hrun.
  { destruct (startTest_then_terminal Sample.settings_excluding 10 17 Sample.t_vote
                (Skip Sample.t_vote "later") w) as (w' & Hw' & _).
    unfold cs. rewrite Hw'. reflexivity. }
  split; [exact Hrun|].
  exact (proj1 (completed_test_elapsed_time Sample.settings_excluding 10 17 Sample.t_vote
                  (Skip Sample.t_vote "later") w _ Hrun)).
Defined.
